(** * CADMarking: a shallow embedding of [CADMarking.py]

    The script marks Solid Edge submissions against a reference solution:
    every [.par] file is exported to a STEP file (three attempts), the
    OpenCASCADE kernel computes volume, surface area and centre of gravity,
    [calculate_mark] turns each percentage difference into a mark, and the
    rows are written to a CSV file.

    Modelling choices.
    - Python numbers.  The arithmetic of [calculate_mark] is written once,
      over the interface [PyFloat], and instantiated twice: with exact
      rationals ([Q]) and with IEEE binary64 ([PrimFloat]), which is what
      CPython computes with.  Marks are [int]s ([Z]).
    - Exceptions are values of [result]; stateful code threads a [world]
      (the output directory, the number of export calls made so far, and
      what was printed) through the monad [M].
    - Solid Edge and the OpenCASCADE kernel are oracles ([services]); a
      file of the output directory holds a document, of which the kernel
      oracle says what it reads.  Of what Solid Edge does to the output
      directory only the STEP file is modelled; the [.txt] and [.log]
      files it may leave there are not.
    - A path inside a directory is represented by its file name; the
      submissions folder is the list [os.listdir] returns for it; deleting
      a file that exists always succeeds, so the handler of lines 65-67 is
      never entered. *)

From Stdlib Require Import ZArith QArith Qabs Lia.
From Stdlib Require Import Ascii String DecimalString.
From Stdlib Require Import Floats.PrimFloat Floats.SpecFloat Floats.FloatOps.
From Stdlib Require Import Floats.FloatAxioms.
From stdpp Require Import gmap strings list fin_maps.

(** ** Python numbers *)

(** The operations the script applies to its measured values.  [of_int]
    is the coercion of an [int] operand of a mixed operation; [fdiv] is the
    quotient for a divisor that is not zero (see [truediv]); [format_f d]
    is the format specification [:.df]. *)
Class PyFloat (T : Type) := {
  of_int : Z -> T;
  fadd : T -> T -> T;
  fsub : T -> T -> T;
  fmul : T -> T -> T;
  fdiv : T -> T -> T;
  fabs : T -> T;
  fleb : T -> T -> bool;
  is_zero : T -> bool;
  format_f : nat -> T -> string
}.

(** ** Exceptions *)

Inductive exn := ZeroDivisionError | TypeError.

Inductive result (A : Type) :=
| Ok (a : A)
| Raise (e : exn).
Arguments Ok {A} a.
Arguments Raise {A} e.

#[export] Instance result_ret : MRet result := @Ok.
#[export] Instance result_bind : MBind result := fun A B f r =>
  match r with
  | Ok a => f a
  | Raise e => Raise e
  end.

(** ** Fixed-point formatting ([:.3f], [:.2f])

    CPython prints the decimal expansion of the exact value of the float,
    rounded to [d] places, ties to even. *)

Definition round_half_even (q : Q) : Z :=
  let n := Qnum q in
  let b := Zpos (Qden q) in
  let k := (n / b)%Z in
  match (2 * (n mod b) ?= b)%Z with
  | Lt => k
  | Gt => (k + 1)%Z
  | Eq => if Z.even k then k else (k + 1)%Z
  end.

Definition digit (n : Z) : ascii := ascii_of_nat (48 + Z.to_nat n).

(** The last [d] decimal digits of [n], zero padded. *)
Fixpoint fraction_digits (d : nat) (n : Z) : string :=
  match d with
  | O => EmptyString
  | S d' => fraction_digits d' (n / 10) +:+ String (digit (n mod 10)) EmptyString
  end.

Definition integer_digits (n : Z) : string :=
  NilZero.string_of_uint (N.to_uint (Z.to_N n)).

(** [q] is not negative. *)
Definition format_magnitude (d : nat) (q : Q) : string :=
  let n := round_half_even (q * inject_Z (10 ^ Z.of_nat d)) in
  integer_digits (n / 10 ^ Z.of_nat d) +:+
  match d with
  | O => EmptyString
  | S _ => String "." (fraction_digits d n)
  end.

Definition format_fixed (d : nat) (q : Q) : string :=
  if Qle_bool 0 q then format_magnitude d q
  else String "-" (format_magnitude d (- q)).

(** ** Exact rationals *)

#[export] Instance Q_PyFloat : PyFloat Q := {|
  of_int := inject_Z;
  fadd := Qplus;
  fsub := Qminus;
  fmul := Qmult;
  fdiv := Qdiv;
  fabs := Qabs;
  fleb := Qle_bool;
  is_zero := fun q => Qeq_bool q 0;
  format_f := format_fixed
|}.

(** ** IEEE binary64 *)

(** The exact value of a finite float. *)
Definition Q_of_finite (m : positive) (e : Z) : Q :=
  match e with
  | Z0 => inject_Z (Zpos m)
  | Zpos p => inject_Z (Zpos m * 2 ^ Zpos p)
  | Zneg p => Zpos m # (2 ^ p)
  end.

Definition format_float (d : nat) (x : float) : string :=
  match Prim2SF x with
  | S754_nan => "nan"
  | S754_infinity s => if s then "-inf" else "inf"
  | S754_zero s =>
      if s then String "-" (format_magnitude d 0) else format_magnitude d 0
  | S754_finite s m e =>
      if s then String "-" (format_magnitude d (Q_of_finite m e))
      else format_magnitude d (Q_of_finite m e)
  end.

#[export] Instance binary64_PyFloat : PyFloat float := {|
  of_int := fun z => SF2Prim (binary_normalize prec emax z 0 false);
  fadd := PrimFloat.add;
  fsub := PrimFloat.sub;
  fmul := PrimFloat.mul;
  fdiv := PrimFloat.div;
  fabs := PrimFloat.abs;
  fleb := PrimFloat.leb;
  is_zero := fun x => PrimFloat.eqb x 0%float;
  format_f := format_float
|}.

(** ** The mark calculator *)

Section Mark.
Context {T : Type} `{PyFloat T}.

(** [x / y]: raises [ZeroDivisionError] on a zero divisor. *)
Definition truediv (x y : T) : result T :=
  if is_zero y then Raise ZeroDivisionError else Ok (fdiv x y).

(** Line 127: [abs((value - expected_value) / expected_value) * 100]. *)
Definition percentage_of (value expected_value : T) : result T :=
  q ← truediv (fsub value expected_value) expected_value;
  Ok (fmul (fabs q) (of_int 100)).

(** Lines 128-138: the [if]/[elif] chain on [percentage]. *)
Definition mark_of_percentage (percentage : T) : Z :=
  if fleb percentage (of_int 1) then 5
  else if fleb percentage (of_int 20) then 4
  else if fleb percentage (of_int 40) then 3
  else if fleb percentage (of_int 60) then 2
  else if fleb percentage (of_int 80) then 1
  else 0.

(** [None] is Python's [None]. *)
Definition calculate_mark (value expected_value : option T) : result Z :=
  match value, expected_value with
  | Some v, Some e =>
      if is_zero e then Ok 0%Z
      else
        percentage ← percentage_of v e;
        Ok (mark_of_percentage percentage)
  | _, _ => Ok 0%Z
  end.

(** Lines 176-179: each axis mark divided by 3, then summed left to right.
    [expected_cg[0]] raises [TypeError] when [expected_cg] is [None]. *)
Definition third (mark : Z) : T := fdiv (of_int mark) (of_int 3).

Definition calculate_cg_mark (cg : T * T * T) (expected_cg : option (T * T * T))
  : result T :=
  match expected_cg with
  | None => Raise TypeError
  | Some (ex, ey, ez) =>
      let '(x, y, z) := cg in
      mx ← calculate_mark (Some x) (Some ex);
      my ← calculate_mark (Some y) (Some ey);
      mz ← calculate_mark (Some z) (Some ez);
      let cg_x_mark := third mx in
      let cg_y_mark := third my in
      let cg_z_mark := third mz in
      Ok (fadd (fadd cg_x_mark cg_y_mark) cg_z_mark)
  end.

End Mark.

(** ** The mark calculator as the specification words it *)

Definition spec_percentage_error (measured expected : Q) : Q :=
  Qabs (measured - expected) / expected * 100.

Definition spec_bucket (percentageError : Q) : Z :=
  if Qle_bool percentageError 1 then 5
  else if Qle_bool percentageError 20 then 4
  else if Qle_bool percentageError 40 then 3
  else if Qle_bool percentageError 60 then 2
  else if Qle_bool percentageError 80 then 1
  else 0.

Definition spec_mark (measured expected : Q) : Z :=
  spec_bucket (spec_percentage_error measured expected).

(** The same words read in binary64, every operation rounded as CPython
    rounds it. *)
Definition spec_percentage_error_binary64 (measured expected : float) : float :=
  (abs (measured - expected) / expected * 100)%float.

Definition spec_bucket_binary64 (percentageError : float) : Z :=
  if (percentageError <=? 1)%float then 5
  else if (percentageError <=? 20)%float then 4
  else if (percentageError <=? 40)%float then 3
  else if (percentageError <=? 60)%float then 2
  else if (percentageError <=? 80)%float then 1
  else 0.

Definition spec_mark_binary64 (measured expected : float) : Z :=
  spec_bucket_binary64 (spec_percentage_error_binary64 measured expected).

(** ** File names *)

(** [s.endswith(suffix)]. *)
Definition endswith (s suffix : string) : bool :=
  String.prefix (String.rev suffix) (String.rev s).

Fixpoint all_dots (s : string) : bool :=
  match s with
  | EmptyString => true
  | String c s' => if Ascii.eqb c "." then all_dots s' else false
  end.

(** Splits at the last dot: the text before it, and the text from it on. *)
Fixpoint rsplit_dot (s : string) : option (string * string) :=
  match s with
  | EmptyString => None
  | String c s' =>
      match rsplit_dot s' with
      | Some (root, ext) => Some (String c root, ext)
      | None => if Ascii.eqb c "." then Some (EmptyString, s) else None
      end
  end.

(** [os.path.splitext] on a file name: the extension starts at the last
    dot, unless nothing but dots precedes it. *)
Definition splitext (p : string) : string * string :=
  match rsplit_dot p with
  | Some (root, ext) => if all_dots root then (p, EmptyString) else (root, ext)
  | None => (p, EmptyString)
  end.

(** ** The outside world *)

(** What Solid Edge does on one call of [export_to_step]. *)
Inductive export_outcome (doc : Type) :=
| OpenFails                 (* [Dispatch] or [Documents.Open] raises *)
| SaveAsFails               (* [SaveAs] raises, after line 32 *)
| Saved (d : doc).          (* [SaveAs] writes the STEP file *)
Arguments OpenFails {doc}.
Arguments SaveAsFails {doc}.
Arguments Saved {doc} d.

(** What the OpenCASCADE kernel makes of a file. *)
Inductive kernel_outcome (T : Type) :=
| StatusNotDone             (* [ReadFile] does not return [IFSelect_RetDone] *)
| KernelRaises
| Properties (volume surface_area : T) (cg : T * T * T).
Arguments StatusNotDone {T}.
Arguments KernelRaises {T}.
Arguments Properties {T} volume surface_area cg.

(** [solid_edge n p] is the outcome of the [n]-th export call of the run
    (counted from 0) when it is asked for the file [p]. *)
Record services (T doc : Type) := {
  solid_edge : nat -> string -> export_outcome doc;
  occ_kernel : doc -> kernel_outcome T
}.
Arguments solid_edge {T doc} s n par_file_path.
Arguments occ_kernel {T doc} s d.

(** The lines the script prints (the messages of the [finally] block of
    [export_to_step] are left out). *)
Inductive message :=
| ErrorExporting (par_file_path : string)
| DeletedFile (file : string)
| ErrorReadingStep (step_file_path : string)
| ErrorProcessingStep (step_file_path : string)
| FailedToExport (file_name : string) (retry_count : nat)
| ErrorCalculating (file_name : string)
| Processed (submission_count total_submissions : nat).

Record world (doc : Type) := World {
  output_dir : gmap string doc;
  export_calls : nat;
  printed : list message
}.
Arguments World {doc} output_dir export_calls printed.
Arguments output_dir {doc} w.
Arguments export_calls {doc} w.
Arguments printed {doc} w.

(** State and exceptions. *)
Definition M (doc A : Type) : Type := world doc -> result A * world doc.

#[export] Instance M_ret {doc} : MRet (M doc) := fun A a w => (Ok a, w).
#[export] Instance M_bind {doc} : MBind (M doc) := fun A B f m w =>
  match m w with
  | (Ok a, w') => f a w'
  | (Raise e, w') => (Raise e, w')
  end.

Section World.
Context {doc : Type}.

Definition lift {A} (r : result A) : M doc A := fun w => (r, w).

Definition print (m : message) : M doc unit := fun w =>
  (Ok tt, World (output_dir w) (export_calls w) (printed w ++ [m])).

(** [os.listdir(output_dir)]. *)
Definition listdir : M doc (list string) := fun w =>
  (Ok (map_to_list (output_dir w)).*1, w).

(** [os.path.isfile]. *)
Definition isfile (name : string) : M doc bool := fun w =>
  (Ok (bool_decide (is_Some (output_dir w !! name))), w).

(** [os.remove] of a file of the output directory (every call of the
    script is guarded by [isfile] or follows [listdir]). *)
Definition os_remove (name : string) : M doc unit := fun w =>
  (Ok tt, World (delete name (output_dir w)) (export_calls w) (printed w)).

Definition write_file (name : string) (d : doc) : M doc unit := fun w =>
  (Ok tt, World (<[name := d]> (output_dir w)) (export_calls w) (printed w)).

(** The position of the next export call; the call is counted. *)
Definition next_call : M doc nat := fun w =>
  (Ok (export_calls w), World (output_dir w) (S (export_calls w)) (printed w)).

(** [for x in l: s = body(x, s)]. *)
Fixpoint for_each {A S : Type} (body : A -> S -> M doc S) (l : list A) (s : S)
  : M doc S :=
  match l with
  | [] => mret s
  | x :: l' => s' ← body x s; for_each body l' s'
  end.

(** Lines 56-67. *)
Definition clean_up_files : M doc unit :=
  files ← listdir;
  for_each (fun file (_ : unit) =>
    if endswith file ".txt" || endswith file ".log" then
      os_remove file;;
      print (DeletedFile file)
    else mret tt) files tt.

End World.

(** ** The pipeline *)

(** A cell of a row that [save_results_to_csv] tests with [isinstance]. *)
Inductive field (T : Type) :=
| Number (x : T)
| Label (s : string).
Arguments Number {T} x.
Arguments Label {T} s.

Inductive cg_field (T : Type) :=
| Vector (cg : T * T * T)
| CGLabel (s : string).
Arguments Vector {T} cg.
Arguments CGLabel {T} s.

(** The dictionary appended at lines 181-189. *)
Record row (T : Type) := Row {
  StudentID : string;
  Volume : field T;
  SurfaceArea : field T;
  CenterOfGravity : cg_field T;
  VolumeMark : Z;
  SurfaceAreaMark : Z;
  CGMark : T
}.
Arguments Row {T}.
Arguments StudentID {T} r.
Arguments Volume {T} r.
Arguments SurfaceArea {T} r.
Arguments CenterOfGravity {T} r.
Arguments VolumeMark {T} r.
Arguments SurfaceAreaMark {T} r.
Arguments CGMark {T} r.

Section Pipeline.
Context {T : Type} `{PyFloat T} {doc : Type} (sv : services T doc).

(** Lines 15-40: the STEP file is named after the [.par] file; a stale
    one is removed before [SaveAs]; any exception yields [None]. *)
Definition export_to_step (par_file_path : string) : M doc (option string) :=
  n ← next_call;
  let name := (splitext par_file_path).1 in
  let step_file_path := name +:+ ".step" in
  match solid_edge sv n par_file_path with
  | OpenFails =>
      print (ErrorExporting par_file_path);;
      mret None
  | SaveAsFails =>
      present ← isfile step_file_path;
      (if present : bool then os_remove step_file_path else mret tt);;
      print (ErrorExporting par_file_path);;
      mret None
  | Saved d =>
      present ← isfile step_file_path;
      (if present : bool then os_remove step_file_path else mret tt);;
      write_file step_file_path d;;
      mret (Some step_file_path)
  end.

(** Lines 70-104: the triple of results, all [None] on any failure. *)
Definition calculate_properties (step_file_path : string)
  : M doc (option T * option T * option (T * T * T)) := fun w =>
  match output_dir w !! step_file_path with
  | None => (print (ErrorReadingStep step_file_path);; mret (None, None, None)) w
  | Some d =>
      match occ_kernel sv d with
      | StatusNotDone =>
          (print (ErrorReadingStep step_file_path);; mret (None, None, None)) w
      | KernelRaises =>
          (print (ErrorProcessingStep step_file_path);; mret (None, None, None)) w
      | Properties volume surface_area cg =>
          (Ok (Some volume, Some surface_area, Some cg), w)
      end
  end.

(** Lines 107-118. *)
Definition extract_expected_values (solution_file_path : string)
  : M doc (option T * option T * option (T * T * T)) :=
  step_file_path ← export_to_step solution_file_path;
  match step_file_path with
  | Some step_file_path =>
      expected ← calculate_properties step_file_path;
      present ← isfile step_file_path;
      (if present : bool then os_remove step_file_path else mret tt);;
      clean_up_files;;
      mret expected
  | None => mret (None, None, None)
  end.

(** Lines 155-159: [for _ in range(retry_count)], left by [break] on the
    first path that is not [None]. *)
Fixpoint export_with_retry (retry_count : nat) (par_file_path : string)
  : M doc (option string) :=
  match retry_count with
  | O => mret None
  | S n =>
      step_file_path ← export_to_step par_file_path;
      match step_file_path with
      | Some p => mret (Some p)
      | None => export_with_retry n par_file_path
      end
  end.

(** Lines 154-166: what the loop body does to obtain the properties of one
    submission; [None] when the body leaves by the first [continue]. *)
Definition extract_submission (file_name : string)
  : M doc (option (string * (option T * option T * option (T * T * T)))) :=
  let par_file_path := file_name in
  let retry_count := 3 in
  step_file_path ← export_with_retry retry_count par_file_path;
  match step_file_path with
  | None =>
      print (FailedToExport file_name retry_count);;
      mret None
  | Some step_file_path =>
      properties ← calculate_properties step_file_path;
      mret (Some (step_file_path, properties))
  end.

(** Lines 150-196: the body of the loop on one directory entry, on the
    loop variables [results] and [submission_count]. *)
Definition process_file (total_submissions : nat)
    (expected_volume expected_surface_area : option T)
    (expected_cg : option (T * T * T))
    (file_name : string) (vars : list (row T) * nat)
  : M doc (list (row T) * nat) :=
  let '(results, submission_count) := vars in
  if endswith file_name ".par" then
    let student_id := (splitext file_name).1 in
    extracted ← extract_submission file_name;
    match extracted with
    | None => mret vars
    | Some (step_file_path, (Some volume, Some surface_area, Some cg)) =>
        volume_mark ← lift (calculate_mark (Some volume) expected_volume);
        surface_area_mark ←
          lift (calculate_mark (Some surface_area) expected_surface_area);
        cg_mark ← lift (calculate_cg_mark cg expected_cg);
        let results := results ++
          [Row student_id (Number volume) (Number surface_area) (Vector cg)
               volume_mark surface_area_mark cg_mark] in
        present ← isfile step_file_path;
        (if present : bool then os_remove step_file_path else mret tt);;
        let submission_count := S submission_count in
        print (Processed submission_count total_submissions);;
        mret (results, submission_count)
    | Some _ =>
        print (ErrorCalculating file_name);;
        mret vars
    end
  else mret vars.

(** Lines 141-199.  [submissions_folder] is [os.listdir] of the folder, in
    the order the operating system lists it. *)
Definition process_submissions (submissions_folder : list string)
    (expected_volume expected_surface_area : option T)
    (expected_cg : option (T * T * T)) : M doc (list (row T)) :=
  let total_submissions :=
    length (List.filter (fun f => endswith f ".par") submissions_folder) in
  '(results, _) ← for_each
     (process_file total_submissions expected_volume expected_surface_area
        expected_cg) submissions_folder ([], O);
  clean_up_files;;
  mret results.

(** Lines 202-225: the rows handed to [csv.DictWriter], the header first,
    each with its cells in the order of [fieldnames]. *)
Definition fieldnames : list string :=
  ["StudentID"; "Volume"; "SurfaceArea"; "CenterOfGravity"; "VolumeMark";
   "SurfaceAreaMark"; "CGMark"].

Definition format_field (v : field T) : string :=
  match v with
  | Number x => format_f 3 x
  | Label s => s
  end.

Definition format_cg (v : cg_field T) : string :=
  match v with
  | Vector (x, y, z) =>
      "(" +:+ format_f 3 x +:+ ", " +:+ format_f 3 y +:+ ", " +:+
      format_f 3 z +:+ ")"
  | CGLabel s => s
  end.

Definition format_row (result : row T) : list string :=
  [StudentID result;
   format_field (Volume result);
   format_field (SurfaceArea result);
   format_cg (CenterOfGravity result);
   format_f 2 (of_int (VolumeMark result));
   format_f 2 (of_int (SurfaceAreaMark result));
   format_f 2 (CGMark result)].

Definition save_results_to_csv (results : list (row T)) : list (list string) :=
  fieldnames :: map format_row results.

End Pipeline.

(** ** Vocabulary of the statements *)

(** The STEP file [export_to_step] writes for a [.par] file. *)
Definition step_file_of (par_file_path : string) : string :=
  (splitext par_file_path).1 +:+ ".step".

Definition saved {doc} (o : export_outcome doc) : bool :=
  match o with
  | Saved _ => true
  | _ => false
  end.

Definition is_progress (m : message) : bool :=
  match m with
  | Processed _ _ => true
  | _ => false
  end.

(** A file [clean_up_files] deletes. *)
Definition is_junk (file : string) : bool :=
  endswith file ".txt" || endswith file ".log".

Definition is_par (file : string) : bool := endswith file ".par".

(** A row as [process_submissions] builds it: numbers and a vector. *)
Definition is_numeric_row {T} (r : row T) : Prop :=
  match Volume r, SurfaceArea r, CenterOfGravity r with
  | Number _, Number _, Vector _ => True
  | _, _, _ => False
  end.

(** The progress lines numbered [first], [first + 1], ... of a batch. *)
Definition progress_lines (total first n : nat) : list message :=
  map (fun k => Processed k total) (seq first n).

(** For a Solid Edge whose outcome does not depend on the call: whether a
    submission yields properties. *)
Definition extraction_succeeds {T doc} (sv : services T doc) (file : string) : bool :=
  match solid_edge sv 0 file with
  | Saved d =>
      match occ_kernel sv d with
      | Properties _ _ _ => true
      | _ => false
      end
  | _ => false
  end.

(** Decimal digits, and the shape of a number printed with [d] decimals:
    an optional minus sign, at least one digit, a point, [d] digits. *)
Definition is_digit (c : ascii) : bool :=
  (48 <=? nat_of_ascii c)%nat && (nat_of_ascii c <=? 57)%nat.

Fixpoint all_digits (s : string) : bool :=
  match s with
  | EmptyString => true
  | String c s' => is_digit c && all_digits s'
  end.

Definition fixed_point (d : nat) (s : string) : Prop :=
  exists sign int frac,
    s = sign +:+ int +:+ String "." frac /\
    (sign = EmptyString \/ sign = "-") /\
    int <> EmptyString /\ all_digits int = true /\
    all_digits frac = true /\ String.length frac = d.

(** The world after one more printed line. *)
Definition add_print {doc} (m : message) (w : world doc) : world doc :=
  World (output_dir w) (export_calls w) (printed w ++ [m]).

(** The ways through the body of the loop of [process_submissions] on one
    directory entry, from the loop variables [(results, submission_count)]
    and the world [w], when the expected centre of gravity is a tuple. *)
Section BodyPaths.
Context {T : Type} `{PyFloat T} {doc : Type} (sv : services T doc).
Context (total_submissions : nat) (expected_volume expected_surface_area : option T).
Context (expected_cg : T * T * T) (file_name : string).
Context (results : list (row T)) (submission_count : nat) (w : world doc).

Inductive body_path : list (row T) -> nat -> world doc -> Prop :=
| not_a_submission :
    is_par file_name = false ->
    body_path results submission_count w
| export_failed w1 :
    is_par file_name = true ->
    export_with_retry sv 3 file_name w = (Ok None, w1) ->
    body_path results submission_count
      (add_print (FailedToExport file_name 3) w1)
| calculation_failed w1 w2 :
    is_par file_name = true ->
    export_with_retry sv 3 file_name w = (Ok (Some (step_file_of file_name)), w1) ->
    calculate_properties sv (step_file_of file_name) w1 = (Ok (None, None, None), w2) ->
    body_path results submission_count
      (add_print (ErrorCalculating file_name) w2)
| marked w1 volume surface_area cg volume_mark surface_area_mark cg_mark :
    is_par file_name = true ->
    export_with_retry sv 3 file_name w = (Ok (Some (step_file_of file_name)), w1) ->
    calculate_properties sv (step_file_of file_name) w1 =
      (Ok (Some volume, Some surface_area, Some cg), w1) ->
    calculate_mark (Some volume) expected_volume = Ok volume_mark ->
    calculate_mark (Some surface_area) expected_surface_area = Ok surface_area_mark ->
    calculate_cg_mark cg (Some expected_cg) = Ok cg_mark ->
    body_path
      (results ++
         [Row (splitext file_name).1 (Number volume) (Number surface_area)
            (Vector cg) volume_mark surface_area_mark cg_mark])
      (S submission_count)
      (add_print (Processed (S submission_count) total_submissions)
         (World (delete (step_file_of file_name) (output_dir w1))
            (export_calls w1) (printed w1))).

End BodyPaths.

(** A run of the loop: one way through the body per directory entry. *)
Section LoopPaths.
Context {T : Type} `{PyFloat T} {doc : Type} (sv : services T doc).
Context (total_submissions : nat) (expected_volume expected_surface_area : option T).
Context (expected_cg : T * T * T).

Inductive loop_path :
  list string -> list (row T) -> nat -> world doc ->
  list (row T) -> nat -> world doc -> Prop :=
| loop_done results count w :
    loop_path [] results count w results count w
| loop_step file_name l results count w results1 count1 w1 results2 count2 w2 :
    body_path sv total_submissions expected_volume expected_surface_area
      expected_cg file_name results count w results1 count1 w1 ->
    loop_path l results1 count1 w1 results2 count2 w2 ->
    loop_path (file_name :: l) results count w results2 count2 w2.

End LoopPaths.

(** ** Sample runs *)

(** A STEP document is represented by what the kernel reads from it. *)
Definition cube : kernel_outcome Q := Properties 1000%Q 600%Q (5%Q, 5%Q, 5%Q).

Definition start : world (kernel_outcome Q) := World ∅ 0 [].

(** Solid Edge never opens [s2.par]. *)
Definition batch_services : services Q (kernel_outcome Q) := {|
  solid_edge := fun _ p => if String.eqb p "s2.par" then OpenFails else Saved cube;
  occ_kernel := fun d => d
|}.

(** Solid Edge exports [s2.par] to a file the kernel cannot read. *)
Definition unreadable_services : services Q (kernel_outcome Q) := {|
  solid_edge := fun _ p =>
    if String.eqb p "s2.par" then Saved StatusNotDone else Saved cube;
  occ_kernel := fun d => d
|}.

(** Solid Edge fails on its first [failures] calls and succeeds afterwards. *)
Definition flaky_services (failures : nat) : services Q (kernel_outcome Q) := {|
  solid_edge := fun n _ => if (n <? failures)%nat then OpenFails else Saved cube;
  occ_kernel := fun d => d
|}.

Definition three_submissions : list string := ["s1.par"; "s2.par"; "s3.par"].

(** A binary64 float that is finite and not a zero. *)
Definition finite_nonzero (x : float) : bool :=
  match Prim2SF x with
  | S754_finite _ _ _ => true
  | _ => false
  end.

(** The line a failed submission prints before [continue]. *)
Definition is_failure_line (m : message) : bool :=
  match m with
  | FailedToExport _ _ | ErrorCalculating _ => true
  | _ => false
  end.

(** What the kernel's verdict on a document becomes in
    [calculate_properties]. *)
Definition properties_of {T} (o : kernel_outcome T)
  : option T * option T * option (T * T * T) :=
  match o with
  | Properties volume surface_area cg => (Some volume, Some surface_area, Some cg)
  | _ => (None, None, None)
  end.

(** A row whose marks are the marks of its own values. *)
Definition row_marked {T} `{PyFloat T} (ev esa : option T) (ecg : T * T * T)
    (r : row T) : Prop :=
  exists volume surface_area cg,
    Volume r = Number volume /\ SurfaceArea r = Number surface_area /\
    CenterOfGravity r = Vector cg /\
    calculate_mark (Some volume) ev = Ok (VolumeMark r) /\
    calculate_mark (Some surface_area) esa = Ok (SurfaceAreaMark r) /\
    calculate_cg_mark cg (Some ecg) = Ok (CGMark r).

(** The line of a failed export call, and the line of a failed
    calculation. *)
Definition is_export_error (m : message) : bool :=
  match m with
  | ErrorExporting _ => true
  | _ => false
  end.

Definition is_calculation_error (m : message) : bool :=
  match m with
  | ErrorCalculating _ => true
  | _ => false
  end.

(** How many of the lines satisfy [p]. *)
Definition count_lines (p : message -> bool) (lines : list message) : nat :=
  length (List.filter p lines).

(** * Properties *)

(** ** Rationals: the order laws of the [Q] instance *)

Lemma spec_bucket_compat (p q : Q) : p == q -> spec_bucket p = spec_bucket q.
Proof.
  intros E. unfold spec_bucket.
  now rewrite !(Qleb_comp p q E _ _ (Qeq_refl _)).
Qed.

Lemma Qeq_bool_false (e : Q) : ~ e == 0 -> Qeq_bool e 0 = false.
Proof.
  intros N. destruct (Qeq_bool e 0) eqn:E; [|reflexivity].
  apply Qeq_bool_iff in E. contradiction.
Qed.

Lemma percentage_of_Q (m e : Q) :
  ~ e == 0 -> percentage_of m e = Ok (Qabs ((m - e) / e) * 100)%Q.
Proof.
  intros N. unfold percentage_of, truediv. cbn.
  now rewrite (Qeq_bool_false e N).
Qed.

Lemma calculate_mark_Q (m e : Q) :
  ~ e == 0 ->
  calculate_mark (Some m) (Some e) = Ok (spec_bucket (Qabs ((m - e) / e) * 100)).
Proof.
  intros N. unfold calculate_mark. cbn [is_zero Q_PyFloat].
  rewrite (Qeq_bool_false e N), (percentage_of_Q m e N). reflexivity.
Qed.

Lemma abs_percentage_error (m e : Q) :
  ~ e == 0 ->
  Qabs ((m - e) / e) * 100 == Qabs (spec_percentage_error m e).
Proof.
  intros N. unfold spec_percentage_error, Qdiv.
  rewrite !Qabs_Qmult.
  rewrite (Qabs_pos (Qabs (m - e))) by apply Qabs_nonneg.
  rewrite (Qabs_pos 100) by (unfold Qle; simpl; lia).
  reflexivity.
Qed.

Lemma positive_percentage_error (m e : Q) :
  (0 < e)%Q -> Qabs (spec_percentage_error m e) == spec_percentage_error m e.
Proof.
  intros P. apply Qabs_pos. unfold spec_percentage_error.
  apply Qmult_le_0_compat; [|unfold Qle; simpl; lia].
  apply Qle_shift_div_l; [exact P|]. rewrite Qmult_0_l. apply Qabs_nonneg.
Qed.

Lemma spec_bucket_antitone (p q : Q) :
  (p <= q)%Q -> (spec_bucket q <= spec_bucket p)%Z.
Proof.
  intros L. unfold spec_bucket.
  repeat match goal with
  | |- context [Qle_bool ?a ?b] =>
      let E := fresh "E" in
      destruct (Qle_bool a b) eqn:E;
      [apply Qle_bool_iff in E | apply not_true_iff_false in E; rewrite Qle_bool_iff in E]
  end; try lia; exfalso;
  match goal with
  | Hn : ~ (p <= ?t)%Q, Hq : (q <= ?t)%Q |- _ => apply Hn; now apply Qle_trans with q
  end.
Qed.

Lemma calculate_mark_abs_error (m e : Q) :
  ~ e == 0 ->
  calculate_mark (Some m) (Some e) =
    Ok (spec_bucket (Qabs (spec_percentage_error m e))).
Proof.
  intros N. rewrite (calculate_mark_Q m e N). f_equal.
  apply spec_bucket_compat, abs_percentage_error, N.
Qed.

Lemma calculate_mark_spec_mark (m e : Q) :
  (0 < e)%Q -> calculate_mark (Some m) (Some e) = Ok (spec_mark m e).
Proof.
  intros P. rewrite calculate_mark_abs_error.
  - f_equal. apply spec_bucket_compat, positive_percentage_error, P.
  - intros E. rewrite E in P. exact (Qlt_irrefl 0 P).
Qed.

(** ** The mark calculator, for every number type *)

Section MarkFacts.
Context {T : Type} `{PyFloat T}.

Lemma mark_of_percentage_range (p : T) :
  (0 <= mark_of_percentage p <= 5)%Z.
Proof.
  unfold mark_of_percentage.
  repeat match goal with |- context [if ?b then _ else _] => destruct b end; lia.
Qed.

Lemma calculate_mark_total (v e : option T) :
  exists m, calculate_mark v e = Ok m /\ (0 <= m <= 5)%Z.
Proof.
  destruct v as [v|], e as [e|]; cbn; try (exists 0%Z; split; [reflexivity|lia]).
  unfold percentage_of, truediv.
  destruct (is_zero e) eqn:Z.
  - exists 0%Z. split; [reflexivity|lia].
  - cbn. eexists. split; [reflexivity|]. apply mark_of_percentage_range.
Qed.

Lemma calculate_cg_mark_thirds (cg ecg : T * T * T) :
  exists mx my mz,
    (0 <= mx <= 5)%Z /\ (0 <= my <= 5)%Z /\ (0 <= mz <= 5)%Z /\
    calculate_cg_mark cg (Some ecg) =
      Ok (fadd (fadd (third mx) (third my)) (third mz)).
Proof.
  destruct cg as [[x y] z], ecg as [[ex ey] ez]. unfold calculate_cg_mark.
  destruct (calculate_mark_total (Some x) (Some ex)) as (mx & -> & Hx).
  destruct (calculate_mark_total (Some y) (Some ey)) as (my & -> & Hy).
  destruct (calculate_mark_total (Some z) (Some ez)) as (mz & -> & Hz).
  exists mx, my, mz. repeat split; try lia.
Qed.

(** Lines 176-179, with the three axis marks named. *)
Lemma calculate_cg_mark_sum (x y z ex ey ez : T) :
  exists mx my mz,
    calculate_mark (Some x) (Some ex) = Ok mx /\
    calculate_mark (Some y) (Some ey) = Ok my /\
    calculate_mark (Some z) (Some ez) = Ok mz /\
    calculate_cg_mark (x, y, z) (Some (ex, ey, ez)) =
      Ok (fadd (fadd (fdiv (of_int mx) (of_int 3)) (fdiv (of_int my) (of_int 3)))
               (fdiv (of_int mz) (of_int 3))).
Proof.
  unfold calculate_cg_mark.
  destruct (calculate_mark_total (Some x) (Some ex)) as (mx & Ex & _).
  destruct (calculate_mark_total (Some y) (Some ey)) as (my & Ey & _).
  destruct (calculate_mark_total (Some z) (Some ez)) as (mz & Ez & _).
  exists mx, my, mz. rewrite Ex, Ey, Ez. repeat split.
Qed.

End MarkFacts.

(** For a number type whose [<=] is transitive, a larger percentage never
    yields a larger mark. *)
Section Antitone.
Context {T : Type} `{PyFloat T}.
Hypothesis fleb_trans :
  forall a b c : T, fleb a b = true -> fleb b c = true -> fleb a c = true.

Lemma mark_of_percentage_antitone (p q : T) :
  fleb p q = true -> (mark_of_percentage q <= mark_of_percentage p)%Z.
Proof.
  intros L. unfold mark_of_percentage.
  repeat match goal with
  | |- context [fleb q ?t] =>
      let E := fresh "E" in
      destruct (fleb q t) eqn:E; [rewrite (fleb_trans p q t L E)|]
  end; try lia;
  repeat match goal with
  | |- context [if ?b then _ else _] => destruct b
  end; lia.
Qed.

Lemma calculate_mark_antitone (m1 e1 m2 e2 : T) :
  is_zero e1 = false -> is_zero e2 = false ->
  exists p1 p2 k1 k2,
    percentage_of m1 e1 = Ok p1 /\ percentage_of m2 e2 = Ok p2 /\
    calculate_mark (Some m1) (Some e1) = Ok k1 /\
    calculate_mark (Some m2) (Some e2) = Ok k2 /\
    (fleb p1 p2 = true -> (k2 <= k1)%Z).
Proof.
  intros Z1 Z2. unfold calculate_mark, percentage_of, truediv.
  rewrite Z1, Z2. cbn. do 4 eexists. repeat split.
  apply mark_of_percentage_antitone.
Qed.

End Antitone.

(** The order of binary64 floats is transitive (no nan is below or above
    anything). *)
Lemma SFleb_trans (a b c : spec_float) :
  SFleb a b = true -> SFleb b c = true -> SFleb a c = true.
Proof.
  unfold SFleb, SFcompare.
  destruct a as [sa|sa| |sa ma ea], b as [sb|sb| |sb mb eb], c as [sc|sc| |sc mc ec];
    try destruct sa; try destruct sb; try destruct sc;
    try reflexivity; try discriminate;
    change (Pos.compare_cont Eq) with Pos.compare;
    destruct (Z.compare_spec ea eb); destruct (Z.compare_spec eb ec);
    destruct (Z.compare_spec ea ec); try reflexivity; try discriminate; try lia;
    destruct (Pos.compare_spec ma mb); destruct (Pos.compare_spec mb mc);
    destruct (Pos.compare_spec ma mc); cbn; try reflexivity; try discriminate; lia.
Qed.

Lemma binary64_leb_trans (x y z : float) :
  (x <=? y)%float = true -> (y <=? z)%float = true -> (x <=? z)%float = true.
Proof. rewrite !leb_spec. apply SFleb_trans. Qed.

(** ** Binary64: signs

    Rounding to nearest is symmetric, so the sign of an operand changes
    the sign of a quotient, of a product or of a difference and nothing
    else. *)

Lemma SFabs_binary_round_aux s m e l :
  SFabs (binary_round_aux prec emax s m e l) = binary_round_aux prec emax false m e l.
Proof.
  unfold binary_round_aux.
  destruct (shr_fexp prec emax m e l) as [mrs e'].
  destruct (shr_fexp prec emax _ e' loc_Exact) as [mrs' e''].
  destruct (shr_m mrs'); [reflexivity| |reflexivity].
  destruct (Z.leb e'' _); reflexivity.
Qed.

Lemma SFabs_div (x y : spec_float) :
  SFabs (SF64div x y) = SF64div (SFabs x) (SFabs y).
Proof.
  destruct x as [sx|sx| |sx mx ex], y as [sy|sy| |sy my ey]; try reflexivity.
  unfold SF64div, SFdiv. cbn [SFabs].
  destruct (SFdiv_core_binary prec emax (Zpos mx) ex (Zpos my) ey) as [[mz ez] lz].
  apply SFabs_binary_round_aux.
Qed.

Lemma SFabs_mul (x y : spec_float) :
  SFabs (SF64mul x y) = SF64mul (SFabs x) (SFabs y).
Proof.
  destruct x as [sx|sx| |sx mx ex], y as [sy|sy| |sy my ey]; try reflexivity.
  apply SFabs_binary_round_aux.
Qed.

Lemma SFabs_idem (x : spec_float) : SFabs (SFabs x) = SFabs x.
Proof. now destruct x. Qed.

Lemma SFabs_opp (x : spec_float) : SFabs (SFopp x) = SFabs x.
Proof. now destruct x. Qed.

Lemma SFabs_binary_normalize_opp (m e : Z) :
  SFabs (binary_normalize prec emax (- m) e false) =
  SFabs (binary_normalize prec emax m e false).
Proof.
  destruct m as [|p|p]; [reflexivity| |].
  - change (- Z.pos p)%Z with (Z.neg p). cbn [binary_normalize].
    unfold binary_round. destruct (shl_align _ _ _) as [mz ez].
    now rewrite !SFabs_binary_round_aux.
  - change (- Z.neg p)%Z with (Z.pos p). cbn [binary_normalize].
    unfold binary_round. destruct (shl_align _ _ _) as [mz ez].
    now rewrite !SFabs_binary_round_aux.
Qed.

Lemma SFabs_sub_opp (x y : spec_float) :
  SFabs (SF64sub (SFopp x) (SFopp y)) = SFabs (SF64sub x y).
Proof.
  destruct x as [sx|sx| |sx mx ex], y as [sy|sy| |sy my ey];
    try reflexivity;
    try (destruct sx, sy; reflexivity);
    try (destruct sx; reflexivity); try (destruct sy; reflexivity).
  unfold SF64sub, SFsub. cbn [SFopp]. cbv zeta.
  rewrite <- SFabs_binary_normalize_opp. f_equal. f_equal.
  destruct sx, sy; cbn [negb cond_Zopp]; lia.
Qed.

Lemma SFsub_diag s m e :
  SF64sub (S754_finite s m e) (S754_finite s m e) = S754_zero false.
Proof.
  unfold SF64sub, SFsub. cbv zeta.
  replace (Z.sub _ _) with 0%Z; [reflexivity|].
  destruct s; cbn [cond_Zopp]; lia.
Qed.

Lemma SFabs_positive (x : spec_float) :
  SFltb (S754_zero false) x = true -> SFabs x = x.
Proof. destruct x as [s|s| |s m e]; try destruct s; now try discriminate. Qed.

(** ** The mark calculator in binary64 *)

Lemma calculate_mark_binary64 (v e : float) :
  (e =? 0)%float = false ->
  calculate_mark (Some v) (Some e) =
    Ok (spec_bucket_binary64 (abs ((v - e) / e) * 100)%float).
Proof.
  intros Z. unfold calculate_mark, percentage_of, truediv.
  cbn [is_zero binary64_PyFloat]. rewrite Z. reflexivity.
Qed.

Lemma abs_percentage_error_binary64 (v e : float) :
  (abs ((v - e) / e) * 100)%float = abs (spec_percentage_error_binary64 v e).
Proof.
  apply Prim2SF_inj. unfold spec_percentage_error_binary64.
  repeat first [rewrite abs_spec | rewrite mul_spec | rewrite div_spec].
  rewrite SFabs_mul, !SFabs_div, SFabs_idem. reflexivity.
Qed.

Lemma positive_not_zero_binary64 (e : float) :
  (0 <? e)%float = true -> (e =? 0)%float = false.
Proof.
  rewrite ltb_spec, FloatAxioms.eqb_spec.
  change (Prim2SF 0) with (S754_zero false).
  destruct (Prim2SF e) as [s|s| |s m x]; try destruct s; now try discriminate.
Qed.

Lemma positive_percentage_error_binary64 (v e : float) :
  (0 <? e)%float = true ->
  (abs ((v - e) / e) * 100)%float = spec_percentage_error_binary64 v e.
Proof.
  intros P. apply Prim2SF_inj. unfold spec_percentage_error_binary64.
  repeat first [rewrite abs_spec | rewrite mul_spec | rewrite div_spec].
  rewrite SFabs_div.
  rewrite ltb_spec in P. change (Prim2SF 0) with (S754_zero false) in P.
  now rewrite (SFabs_positive _ P).
Qed.

Lemma calculate_mark_abs_error_binary64 (v e : float) :
  (e =? 0)%float = false ->
  calculate_mark (Some v) (Some e) =
    Ok (spec_bucket_binary64 (abs (spec_percentage_error_binary64 v e))).
Proof.
  intros Z. rewrite (calculate_mark_binary64 v e Z).
  now rewrite abs_percentage_error_binary64.
Qed.

Lemma calculate_mark_spec_mark_binary64 (v e : float) :
  (0 <? e)%float = true ->
  calculate_mark (Some v) (Some e) = Ok (spec_mark_binary64 v e).
Proof.
  intros P. rewrite (calculate_mark_binary64 v e (positive_not_zero_binary64 e P)).
  now rewrite (positive_percentage_error_binary64 v e P).
Qed.

Lemma spec_bucket_binary64_antitone (p q : float) :
  (p <=? q)%float = true -> (spec_bucket_binary64 q <= spec_bucket_binary64 p)%Z.
Proof. exact (mark_of_percentage_antitone binary64_leb_trans p q). Qed.

Lemma mark_cases (m : Z) :
  (0 <= m <= 5)%Z -> m = 0%Z \/ m = 1%Z \/ m = 2%Z \/ m = 3%Z \/ m = 4%Z \/ m = 5%Z.
Proof. lia. Qed.

(** ** Claims on the mark calculator *)

(** C1, as stated, fails: for an expected value below zero (a coordinate of
    the centre of gravity may be negative) the formula
    [|measured - expected| / expected * 100] is negative and falls in the
    first bucket, while line 127 takes the absolute value of the whole
    quotient.  At [measured = 200], [expected = -100] the script returns 0
    (in exact and in binary64 arithmetic) and the formula gives 5. *)
Lemma C1_counterexample :
  ~ (-100 == 0) /\
  spec_mark 200 (-100) = 5%Z /\
  calculate_mark (Some 200%Q) (Some (-100)%Q) = Ok 0%Z /\
  calculate_mark (Some 200%float) (Some (-100)%float) = Ok 0%Z /\
  calculate_mark (Some 200%Q) (Some (-100)%Q) <> Ok (spec_mark 200 (-100)).
Proof.
  split; [|split; [|split; [|split]]]; try reflexivity.
  - intros E. discriminate E.
  - intros E. discriminate E.
Qed.

(** C1, amended: for a measured value and an expected value that is not
    zero, [calculate_mark] is the bucket table applied to
    [|(measured - expected) / expected| * 100], which is the absolute value
    of the specification's [percentageError]; for a positive expected value
    it is the table applied to [percentageError] itself.  Both hold for
    every value in exact arithmetic and for every binary64 float (nan and
    the infinities included), where each operation of the formula is the
    rounded one: the absolute value commutes with the rounded quotient and
    product.  In particular [mark(121, 100) = 3] and
    [mark(200, 100) = 0]. *)
Theorem C1_mark_is_table_of_abs_percentage_error :
  (forall measured expected : Q, ~ expected == 0 ->
     calculate_mark (Some measured) (Some expected) =
       Ok (spec_bucket (Qabs (spec_percentage_error measured expected)))) /\
  (forall measured expected : Q, (0 < expected)%Q ->
     calculate_mark (Some measured) (Some expected) =
       Ok (spec_mark measured expected)) /\
  (forall measured expected : float, (expected =? 0)%float = false ->
     calculate_mark (Some measured) (Some expected) =
       Ok (spec_bucket_binary64
             (abs (spec_percentage_error_binary64 measured expected)))) /\
  (forall measured expected : float, (0 <? expected)%float = true ->
     calculate_mark (Some measured) (Some expected) =
       Ok (spec_mark_binary64 measured expected)) /\
  calculate_mark (Some 121%Q) (Some 100%Q) = Ok 3%Z /\
  calculate_mark (Some 200%Q) (Some 100%Q) = Ok 0%Z /\
  calculate_mark (Some 121%float) (Some 100%float) = Ok 3%Z /\
  calculate_mark (Some 200%float) (Some 100%float) = Ok 0%Z.
Proof.
  split; [exact calculate_mark_abs_error|].
  split; [exact calculate_mark_spec_mark|].
  split; [exact calculate_mark_abs_error_binary64|].
  split; [exact calculate_mark_spec_mark_binary64|].
  repeat split; reflexivity.
Qed.

(** The amended C1 at [measured = 121], [expected = 100]. *)
Lemma C1_witness :
  calculate_mark (Some 121%Q) (Some 100%Q) = Ok (spec_mark 121 100).
Proof.
  apply (proj1 (proj2 C1_mark_is_table_of_abs_percentage_error)).
  reflexivity.
Defined.

(** C3: [calculate_mark] returns 0 when the expected value is zero, when
    the measured value is [None] and when the expected value is [None]; it
    never raises, so the division of line 127, which raises
    [ZeroDivisionError] on a zero divisor, is never reached with one.  This
    holds for every number type, and so for exact rationals and for
    binary64 floats (both zeros). *)
Theorem C3_mark_guards_and_never_raises :
  (forall T (P : PyFloat T) (value expected_value : option T),
     exists m, calculate_mark value expected_value = Ok m) /\
  (forall T (P : PyFloat T) (x : option T),
     calculate_mark None x = Ok 0%Z /\ calculate_mark x None = Ok 0%Z) /\
  (forall T (P : PyFloat T) (x : option T) (e : T),
     is_zero e = true -> calculate_mark x (Some e) = Ok 0%Z) /\
  (forall x : option Q, calculate_mark x (Some 0%Q) = Ok 0%Z) /\
  (forall x : option float,
     calculate_mark x (Some 0%float) = Ok 0%Z /\
     calculate_mark x (Some (-0)%float) = Ok 0%Z).
Proof.
  repeat split.
  - intros T P v e. destruct (calculate_mark_total v e) as (m & E & _). eauto.
  - destruct x; reflexivity.
  - intros T P x e Z. destruct x; cbn; [|reflexivity]. now rewrite Z.
  - destruct x; reflexivity.
  - destruct x; reflexivity.
  - destruct x; reflexivity.
Qed.

(** C3 at an expected value that is zero without being the literal [0]. *)
Lemma C3_witness : calculate_mark (Some 7%Q) (Some (0 # 5)) = Ok 0%Z.
Proof.
  apply (proj1 (proj2 (proj2 C3_mark_guards_and_never_raises))).
  reflexivity.
Defined.

(** C4, as stated, fails: for a negative expected value the formula
    [|measured - expected| / expected * 100] decreases as the measured
    value moves away.  Against [expected = -100], the measured value
    [200] has [percentageError = -300] and the measured value [-100] has
    [percentageError = 0] (minus zero in binary64): the second is the
    larger, and it yields the larger mark, 5 against 0. *)
Lemma C4_counterexample :
  ~ (-100 == 0) /\
  (spec_percentage_error 200 (-100) <= spec_percentage_error (-100) (-100))%Q /\
  calculate_mark (Some 200%Q) (Some (-100)%Q) = Ok 0%Z /\
  calculate_mark (Some (-100)%Q) (Some (-100)%Q) = Ok 5%Z /\
  ((-100)%float =? 0)%float = false /\
  (spec_percentage_error_binary64 200 (-100) <=?
   spec_percentage_error_binary64 (-100) (-100))%float = true /\
  calculate_mark (Some 200%float) (Some (-100)%float) = Ok 0%Z /\
  calculate_mark (Some (-100)%float) (Some (-100)%float) = Ok 5%Z /\
  ~ (forall m1 e1 m2 e2 : Q, ~ e1 == 0 -> ~ e2 == 0 ->
       (spec_percentage_error m1 e1 <= spec_percentage_error m2 e2)%Q ->
       forall k1 k2,
         calculate_mark (Some m1) (Some e1) = Ok k1 ->
         calculate_mark (Some m2) (Some e2) = Ok k2 -> (k2 <= k1)%Z).
Proof.
  assert (~ (-100 == 0)) as N by (intros E; discriminate E).
  assert ((spec_percentage_error 200 (-100) <=
           spec_percentage_error (-100) (-100))%Q) as L
    by (vm_compute; discriminate).
  split; [exact N|]. split; [exact L|].
  do 6 (split; [reflexivity|]).
  intros A.
  specialize (A 200%Q (-100)%Q (-100)%Q (-100)%Q N N L 0%Z 5%Z eq_refl eq_refl). lia.
Qed.

(** C4, amended: [calculate_mark] always returns one of 0, 1, 2, 3, 4, 5
    (for every number type), and, for expected values that are not zero,
    the mark is non-increasing in the percentage computed at line 127,
    which is the absolute value of the specification's [percentageError]:
    a larger [|percentageError|] never yields a larger mark.  For positive
    expected values, where [percentageError] is its own absolute value, the
    mark is non-increasing in [percentageError] itself.  All of it holds
    in exact arithmetic and in binary64, where the percentages are
    compared as floats. *)
Theorem C4_mark_range_and_antitone :
  (forall T (P : PyFloat T) (value expected_value : option T),
     exists m, calculate_mark value expected_value = Ok m /\
       (m = 0 \/ m = 1 \/ m = 2 \/ m = 3 \/ m = 4 \/ m = 5)%Z) /\
  (forall m1 e1 m2 e2 : Q, ~ e1 == 0 -> ~ e2 == 0 ->
     exists p1 p2 k1 k2,
       percentage_of m1 e1 = Ok p1 /\ percentage_of m2 e2 = Ok p2 /\
       calculate_mark (Some m1) (Some e1) = Ok k1 /\
       calculate_mark (Some m2) (Some e2) = Ok k2 /\
       ((p1 <= p2)%Q -> (k2 <= k1)%Z)) /\
  (forall m1 e1 m2 e2 : Q, (0 < e1)%Q -> (0 < e2)%Q ->
     (spec_percentage_error m1 e1 <= spec_percentage_error m2 e2)%Q ->
     exists k1 k2,
       calculate_mark (Some m1) (Some e1) = Ok k1 /\
       calculate_mark (Some m2) (Some e2) = Ok k2 /\ (k2 <= k1)%Z) /\
  (forall m1 e1 m2 e2 : float,
     (e1 =? 0)%float = false -> (e2 =? 0)%float = false ->
     exists p1 p2 k1 k2,
       percentage_of m1 e1 = Ok p1 /\ percentage_of m2 e2 = Ok p2 /\
       calculate_mark (Some m1) (Some e1) = Ok k1 /\
       calculate_mark (Some m2) (Some e2) = Ok k2 /\
       ((p1 <=? p2)%float = true -> (k2 <= k1)%Z)) /\
  (forall m1 e1 m2 e2 : Q, ~ e1 == 0 -> ~ e2 == 0 ->
     (Qabs (spec_percentage_error m1 e1) <= Qabs (spec_percentage_error m2 e2))%Q ->
     exists k1 k2,
       calculate_mark (Some m1) (Some e1) = Ok k1 /\
       calculate_mark (Some m2) (Some e2) = Ok k2 /\ (k2 <= k1)%Z) /\
  (forall m1 e1 m2 e2 : float,
     (e1 =? 0)%float = false -> (e2 =? 0)%float = false ->
     (abs (spec_percentage_error_binary64 m1 e1) <=?
      abs (spec_percentage_error_binary64 m2 e2))%float = true ->
     exists k1 k2,
       calculate_mark (Some m1) (Some e1) = Ok k1 /\
       calculate_mark (Some m2) (Some e2) = Ok k2 /\ (k2 <= k1)%Z) /\
  (forall m1 e1 m2 e2 : float,
     (0 <? e1)%float = true -> (0 <? e2)%float = true ->
     (spec_percentage_error_binary64 m1 e1 <=?
      spec_percentage_error_binary64 m2 e2)%float = true ->
     exists k1 k2,
       calculate_mark (Some m1) (Some e1) = Ok k1 /\
       calculate_mark (Some m2) (Some e2) = Ok k2 /\ (k2 <= k1)%Z).
Proof.
  split; [|split; [|split; [|split; [|split; [|split]]]]];
    [| | |exact (calculate_mark_antitone binary64_leb_trans)| | |].
  - intros T P v e. destruct (calculate_mark_total v e) as (m & E & R).
    exists m. split; [exact E|]. now apply mark_cases.
  - intros m1 e1 m2 e2 N1 N2.
    exists (Qabs ((m1 - e1) / e1) * 100)%Q, (Qabs ((m2 - e2) / e2) * 100)%Q.
    do 2 eexists.
    rewrite !percentage_of_Q, !calculate_mark_Q by assumption.
    repeat split. apply spec_bucket_antitone.
  - intros m1 e1 m2 e2 P1 P2 L.
    do 2 eexists. rewrite !calculate_mark_spec_mark by assumption.
    repeat split.
    now apply spec_bucket_antitone.
  - intros m1 e1 m2 e2 N1 N2 L.
    do 2 eexists. rewrite !calculate_mark_abs_error by assumption.
    repeat split.
    now apply spec_bucket_antitone.
  - intros m1 e1 m2 e2 N1 N2 L.
    do 2 eexists. rewrite !calculate_mark_abs_error_binary64 by assumption.
    repeat split.
    now apply spec_bucket_binary64_antitone.
  - intros m1 e1 m2 e2 P1 P2 L.
    do 2 eexists. rewrite !calculate_mark_spec_mark_binary64 by assumption.
    repeat split.
    now apply spec_bucket_binary64_antitone.
Qed.

(** C4 at the percentages 0 and 21. *)
Lemma C4_witness :
  exists k1 k2,
    calculate_mark (Some 100%Q) (Some 100%Q) = Ok k1 /\
    calculate_mark (Some 121%Q) (Some 100%Q) = Ok k2 /\ (k2 <= k1)%Z.
Proof.
  apply (proj1 (proj2 (proj2 C4_mark_range_and_antitone)));
    vm_compute; first [reflexivity | discriminate].
Defined.

Lemma thirds_sum_Q (m1 m2 m3 : Z) :
  (0 <= m1 <= 5)%Z -> (0 <= m2 <= 5)%Z -> (0 <= m3 <= 5)%Z ->
  (0 <= (third m1 : Q) + third m2 + third m3 <= 5)%Q.
Proof.
  intros H1 H2 H3.
  destruct (mark_cases m1 H1) as [-> | [-> | [-> | [-> | [-> | ->]]]]];
  destruct (mark_cases m2 H2) as [-> | [-> | [-> | [-> | [-> | ->]]]]];
  destruct (mark_cases m3 H3) as [-> | [-> | [-> | [-> | [-> | ->]]]]];
  split; vm_compute; discriminate.
Qed.

Lemma thirds_sum_binary64 (m1 m2 m3 : Z) :
  (0 <= m1 <= 5)%Z -> (0 <= m2 <= 5)%Z -> (0 <= m3 <= 5)%Z ->
  let s := fadd (fadd (third m1 : float) (third m2)) (third m3) in
  fleb (of_int 0) s = true /\ fleb s (of_int 5) = true.
Proof.
  intros H1 H2 H3.
  destruct (mark_cases m1 H1) as [-> | [-> | [-> | [-> | [-> | ->]]]]];
  destruct (mark_cases m2 H2) as [-> | [-> | [-> | [-> | [-> | ->]]]]];
  destruct (mark_cases m3 H3) as [-> | [-> | [-> | [-> | [-> | ->]]]]];
  split; vm_compute; reflexivity.
Qed.

(** C5: the centre-of-gravity mark is the sum of the three axis marks,
    each the result of [calculate_mark] on its own coordinate and each
    divided by 3, added from left to right (for every number type, and
    spelled out for exact rationals and for binary64); an axis contributes
    between 0 and 5/3, and the sum lies in [[0, 5]]: for any three marks
    between 0 and 5, [m1/3 + m2/3 + m3/3 <= 5].  The bound holds in exact
    arithmetic and, checked on all 216 combinations, in binary64 with the
    rounding of each division and each addition. *)
Theorem C5_cg_mark_bounds :
  (forall T (P : PyFloat T) (x y z ex ey ez : T),
     exists mx my mz,
       calculate_mark (Some x) (Some ex) = Ok mx /\
       calculate_mark (Some y) (Some ey) = Ok my /\
       calculate_mark (Some z) (Some ez) = Ok mz /\
       calculate_cg_mark (x, y, z) (Some (ex, ey, ez)) =
         Ok (fadd (fadd (fdiv (of_int mx) (of_int 3)) (fdiv (of_int my) (of_int 3)))
                  (fdiv (of_int mz) (of_int 3)))) /\
  (forall x y z ex ey ez : Q,
     exists mx my mz,
       calculate_mark (Some x) (Some ex) = Ok mx /\
       calculate_mark (Some y) (Some ey) = Ok my /\
       calculate_mark (Some z) (Some ez) = Ok mz /\
       calculate_cg_mark (x, y, z) (Some (ex, ey, ez)) =
         Ok (inject_Z mx / 3 + inject_Z my / 3 + inject_Z mz / 3)%Q) /\
  (forall x y z ex ey ez : float,
     exists mx my mz,
       calculate_mark (Some x) (Some ex) = Ok mx /\
       calculate_mark (Some y) (Some ey) = Ok my /\
       calculate_mark (Some z) (Some ez) = Ok mz /\
       calculate_cg_mark (x, y, z) (Some (ex, ey, ez)) =
         Ok (of_int mx / 3 + of_int my / 3 + of_int mz / 3)%float) /\
  (forall m : Z, (0 <= m <= 5)%Z ->
     third m = (inject_Z m / 3)%Q /\ (0 <= (third m : Q) <= 5 # 3)%Q) /\
  (forall m1 m2 m3 : Z,
     (0 <= m1 <= 5)%Z -> (0 <= m2 <= 5)%Z -> (0 <= m3 <= 5)%Z ->
     ((third m1 : Q) + third m2 + third m3 <= 5)%Q) /\
  (forall cg expected_cg : Q * Q * Q,
     exists c, calculate_cg_mark cg (Some expected_cg) = Ok c /\
       (0 <= c <= 5)%Q) /\
  (forall m : Z, (0 <= m <= 5)%Z ->
     third m = (of_int m / 3)%float /\
     (0 <=? third m)%float = true /\ (third m <=? 5 / 3)%float = true) /\
  (forall m1 m2 m3 : Z,
     (0 <= m1 <= 5)%Z -> (0 <= m2 <= 5)%Z -> (0 <= m3 <= 5)%Z ->
     (third m1 + third m2 + third m3 <=? 5)%float = true) /\
  (forall cg expected_cg : float * float * float,
     exists c, calculate_cg_mark cg (Some expected_cg) = Ok c /\
       (0 <=? c)%float = true /\ (c <=? 5)%float = true).
Proof.
  repeat apply conj.
  - intros T P x y z ex ey ez. apply calculate_cg_mark_sum.
  - intros x y z ex ey ez.
    destruct (calculate_cg_mark_sum x y z ex ey ez) as (mx & my & mz & Ex & Ey & Ez & E).
    exists mx, my, mz. repeat split; first [assumption | exact E].
  - intros x y z ex ey ez.
    destruct (calculate_cg_mark_sum x y z ex ey ez) as (mx & my & mz & Ex & Ey & Ez & E).
    exists mx, my, mz. repeat split; first [assumption | exact E].
  - intros m Hm. split; [reflexivity|].
    destruct (mark_cases m Hm) as [-> | [-> | [-> | [-> | [-> | ->]]]]];
      split; vm_compute; discriminate.
  - intros m1 m2 m3 H1 H2 H3. apply (thirds_sum_Q m1 m2 m3 H1 H2 H3).
  - intros cg ecg.
    destruct (calculate_cg_mark_thirds cg ecg) as (mx & my & mz & Hx & Hy & Hz & E).
    eexists. split; [exact E|]. apply (thirds_sum_Q mx my mz Hx Hy Hz).
  - intros m Hm. split; [reflexivity|].
    destruct (mark_cases m Hm) as [-> | [-> | [-> | [-> | [-> | ->]]]]];
      split; vm_compute; reflexivity.
  - intros m1 m2 m3 H1 H2 H3. apply (thirds_sum_binary64 m1 m2 m3 H1 H2 H3).
  - intros cg ecg.
    destruct (calculate_cg_mark_thirds cg ecg) as (mx & my & mz & Hx & Hy & Hz & E).
    eexists. split; [exact E|]. apply (thirds_sum_binary64 mx my mz Hx Hy Hz).
Qed.

(** C5 at three full marks. *)
Lemma C5_witness : ((third 5 : Q) + third 5 + third 5 <= 5)%Q.
Proof.
  apply (proj1 (proj2 (proj2 (proj2 (proj2 C5_cg_mark_bounds))))); lia.
Defined.

(** ** The monad and the primitives *)

Section Runs.
Context {T : Type} `{PyFloat T} {doc : Type} (sv : services T doc).

Lemma bind_run {A B} (m : M doc A) (f : A -> M doc B) (w : world doc) :
  (m ≫= f) w =
  match m w with
  | (Ok a, w') => f a w'
  | (Raise e, w') => (Raise e, w')
  end.
Proof. reflexivity. Qed.

Lemma ret_run {A} (a : A) (w : world doc) : (mret a : M doc A) w = (Ok a, w).
Proof. reflexivity. Qed.

Lemma export_to_step_run (par : string) (w : world doc) :
  export_to_step sv par w =
  match solid_edge sv (export_calls w) par with
  | OpenFails =>
      (Ok None, World (output_dir w) (S (export_calls w))
                  (printed w ++ [ErrorExporting par]))
  | SaveAsFails =>
      (Ok None, World (delete (step_file_of par) (output_dir w))
                  (S (export_calls w)) (printed w ++ [ErrorExporting par]))
  | Saved d =>
      (Ok (Some (step_file_of par)),
       World (<[step_file_of par := d]> (delete (step_file_of par) (output_dir w)))
         (S (export_calls w)) (printed w))
  end.
Proof.
  unfold export_to_step. rewrite bind_run. cbn [next_call].
  fold (step_file_of par).
  destruct (solid_edge sv (export_calls w) par); [reflexivity| |];
    rewrite bind_run; unfold isfile at 1; cbn [output_dir];
    (destruct (output_dir w !! step_file_of par) as [d0|] eqn:L;
     [reflexivity|cbn; now rewrite (delete_id _ _ L)]).
Qed.

Lemma calculate_properties_run (step : string) (w : world doc) :
  calculate_properties sv step w =
  match output_dir w !! step with
  | None => (Ok (None, None, None), add_print (ErrorReadingStep step) w)
  | Some d =>
      match occ_kernel sv d with
      | StatusNotDone => (Ok (None, None, None), add_print (ErrorReadingStep step) w)
      | KernelRaises => (Ok (None, None, None), add_print (ErrorProcessingStep step) w)
      | Properties volume surface_area cg =>
          (Ok (Some volume, Some surface_area, Some cg), w)
      end
  end.
Proof.
  unfold calculate_properties.
  destruct (output_dir w !! step) as [d|]; [|reflexivity].
  destruct (occ_kernel sv d); reflexivity.
Qed.

(** What a run of the retry loop leaves behind. *)
Lemma export_with_retry_spec (n : nat) (par : string) (w : world doc) :
  exists k o w',
    export_with_retry sv n par w = (Ok o, w') /\
    k <= n /\
    export_calls w' = export_calls w + k /\
    (forall j, j + 1 < k -> saved (solid_edge sv (export_calls w + j) par) = false) /\
    match o with
    | Some p =>
        p = step_file_of par /\ 0 < k /\
        exists d, solid_edge sv (export_calls w + (k - 1)) par = Saved d /\
                  output_dir w' !! p = Some d
    | None =>
        k = n /\
        forall j, j < n -> saved (solid_edge sv (export_calls w + j) par) = false
    end /\
    (forall f, f <> step_file_of par -> output_dir w' !! f = output_dir w !! f) /\
    exists new, printed w' = printed w ++ new /\ List.filter is_progress new = [].
Proof.
  revert w. induction n as [|n IH]; intros w.
  - exists 0, None, w. split; [reflexivity|]. split; [lia|]. split; [lia|].
    split; [intros j Hj; lia|]. split; [split; [reflexivity|intros j Hj; lia]|].
    split; [reflexivity|]. exists []. now rewrite app_nil_r.
  - cbn [export_with_retry]. rewrite bind_run, export_to_step_run.
    destruct (solid_edge sv (export_calls w) par) as [| |d] eqn:E.
    + destruct (IH (World (output_dir w) (S (export_calls w))
                      (printed w ++ [ErrorExporting par])))
        as (k & o & w' & R & Hk & Hc & Hf & Ho & Hd & new & Hp & Hn).
      cbn [export_calls output_dir printed] in *.
      exists (S k), o, w'. split; [exact R|]. split; [lia|]. split; [lia|].
      split; [|split; [|split]].
      * intros [|j] Hj; [rewrite Nat.add_0_r, E; reflexivity|].
        replace (export_calls w + S j) with (S (export_calls w) + j) by lia.
        apply Hf. lia.
      * destruct o as [p|].
        -- destruct Ho as (-> & Hk0 & d & Hs & Hl). split; [reflexivity|].
           split; [lia|]. exists d. split; [|exact Hl].
           replace (export_calls w + (S k - 1)) with (S (export_calls w) + (k - 1)) by lia.
           exact Hs.
        -- destruct Ho as (-> & Ha). split; [reflexivity|].
           intros [|j] Hj; [rewrite Nat.add_0_r, E; reflexivity|].
           replace (export_calls w + S j) with (S (export_calls w) + j) by lia.
           apply Ha. lia.
      * exact Hd.
      * exists (ErrorExporting par :: new). split.
        -- rewrite Hp, <- app_assoc. reflexivity.
        -- cbn. exact Hn.
    + destruct (IH (World (delete (step_file_of par) (output_dir w))
                      (S (export_calls w)) (printed w ++ [ErrorExporting par])))
        as (k & o & w' & R & Hk & Hc & Hf & Ho & Hd & new & Hp & Hn).
      cbn [export_calls output_dir printed] in *.
      exists (S k), o, w'. split; [exact R|]. split; [lia|]. split; [lia|].
      split; [|split; [|split]].
      * intros [|j] Hj; [rewrite Nat.add_0_r, E; reflexivity|].
        replace (export_calls w + S j) with (S (export_calls w) + j) by lia.
        apply Hf. lia.
      * destruct o as [p|].
        -- destruct Ho as (-> & Hk0 & d & Hs & Hl). split; [reflexivity|].
           split; [lia|]. exists d. split; [|exact Hl].
           replace (export_calls w + (S k - 1)) with (S (export_calls w) + (k - 1)) by lia.
           exact Hs.
        -- destruct Ho as (-> & Ha). split; [reflexivity|].
           intros [|j] Hj; [rewrite Nat.add_0_r, E; reflexivity|].
           replace (export_calls w + S j) with (S (export_calls w) + j) by lia.
           apply Ha. lia.
      * intros f Hne. rewrite (Hd f Hne). now apply lookup_delete_ne.
      * exists (ErrorExporting par :: new). split.
        -- rewrite Hp, <- app_assoc. reflexivity.
        -- cbn. exact Hn.
    + eexists 1, _, _. split; [reflexivity|]. cbn [export_calls output_dir printed].
      split; [lia|]. split; [lia|]. split; [intros j Hj; lia|].
      split; [|split].
      * split; [reflexivity|]. split; [lia|]. exists d.
        split; [now rewrite Nat.add_0_r|]. apply lookup_insert_eq.
      * intros f Hne. rewrite lookup_insert_ne by congruence.
        now apply lookup_delete_ne.
      * exists []. now rewrite app_nil_r.
Qed.

Lemma clean_up_loop (l : list string) (w : world doc) :
  exists w',
    for_each (fun file (_ : unit) =>
      if is_junk file then os_remove file;; print (DeletedFile file)
      else mret tt) l tt w = (Ok tt, w') /\
    export_calls w' = export_calls w /\
    (forall k, output_dir w' !! k =
       if is_junk k && bool_decide (k ∈ l) then None else output_dir w !! k) /\
    exists new, printed w' = printed w ++ new /\ List.filter is_progress new = [].
Proof.
  revert w. induction l as [|x l IH]; intros w.
  - exists w. split; [reflexivity|]. split; [reflexivity|]. split.
    + intros k. now rewrite andb_false_r.
    + exists []. now rewrite app_nil_r.
  - cbn [for_each]. rewrite bind_run.
    destruct (is_junk x) eqn:J.
    + destruct (IH (add_print (DeletedFile x)
                      (World (delete x (output_dir w)) (export_calls w) (printed w))))
        as (w' & R & Hc & Hd & new & Hp & Hn).
      exists w'. split; [exact R|]. split; [exact Hc|]. split.
      * intros k. rewrite Hd. cbn [add_print output_dir].
        destruct (decide (k = x)) as [->|Hne].
        -- rewrite J, lookup_delete_eq.
           rewrite (bool_decide_eq_true_2 (x ∈ x :: l)) by apply list_elem_of_here.
           now destruct (bool_decide (x ∈ l)).
        -- rewrite lookup_delete_ne by congruence.
           destruct (is_junk k); [|reflexivity]. cbn.
           destruct (bool_decide_reflect (k ∈ l)) as [In|Nin].
           ++ rewrite bool_decide_eq_true_2; [reflexivity|now apply list_elem_of_further].
           ++ rewrite bool_decide_eq_false_2; [reflexivity|].
              intros [?|?]%elem_of_cons; contradiction.
      * exists (DeletedFile x :: new). split; [|exact Hn].
        rewrite Hp. cbn [add_print printed]. now rewrite <- app_assoc.
    + destruct (IH w) as (w' & R & Hc & Hd & new & Hp & Hn).
      exists w'. split; [exact R|]. split; [exact Hc|]. split.
      * intros k. rewrite Hd.
        destruct (decide (k = x)) as [->|Hne].
        -- now rewrite J.
        -- destruct (is_junk k); [|reflexivity]. cbn.
           destruct (bool_decide_reflect (k ∈ l)) as [In|Nin].
           ++ rewrite bool_decide_eq_true_2; [reflexivity|now apply list_elem_of_further].
           ++ rewrite bool_decide_eq_false_2; [reflexivity|].
              intros [?|?]%elem_of_cons; contradiction.
      * exists new. split; assumption.
Qed.

(** [clean_up_files] deletes the [.txt] and [.log] files and nothing else. *)
Lemma clean_up_files_spec (w : world doc) :
  exists w',
    clean_up_files w = (Ok tt, w') /\
    export_calls w' = export_calls w /\
    (forall k, output_dir w' !! k = if is_junk k then None else output_dir w !! k) /\
    exists new, printed w' = printed w ++ new /\ List.filter is_progress new = [].
Proof.
  unfold clean_up_files. rewrite bind_run. cbn [listdir].
  destruct (clean_up_loop (map_to_list (output_dir w)).*1 w)
    as (w' & R & Hc & Hd & Hp).
  exists w'. split; [exact R|]. split; [exact Hc|]. split; [|exact Hp].
  intros k. rewrite Hd. destruct (is_junk k); [|reflexivity]. cbn.
  destruct (bool_decide_reflect (k ∈ (map_to_list (output_dir w)).*1)) as [In|Nin];
    [reflexivity|].
  destruct (output_dir w !! k) as [d|] eqn:L; [|reflexivity].
  exfalso. apply Nin. apply list_elem_of_fmap. exists (k, d).
  split; [reflexivity|]. now apply elem_of_map_to_list.
Qed.

(** The body of the loop never raises and follows one of the four paths. *)
Lemma process_file_path (total : nat) (ev esa : option T) (ecg : T * T * T)
    (file : string) (results : list (row T)) (count : nat) (w : world doc) :
  exists results' count' w',
    process_file sv total ev esa (Some ecg) file (results, count) w =
      (Ok (results', count'), w') /\
    body_path sv total ev esa ecg file results count w results' count' w'.
Proof.
  unfold process_file. fold (is_par file).
  destruct (is_par file) eqn:P.
  2: { do 3 eexists. split; [reflexivity|]. now apply not_a_submission. }
  unfold extract_submission. rewrite !bind_run.
  destruct (export_with_retry_spec 3 file w)
    as (k & o & w1 & R & _ & _ & _ & Ho & _).
  rewrite R. destruct o as [p|].
  2: { do 3 eexists. split; [reflexivity|]. now apply export_failed. }
  destruct Ho as (-> & _ & d & _ & L).
  rewrite bind_run.
  pose proof (calculate_properties_run (step_file_of file) w1) as C.
  rewrite L in C. rewrite C.
  destruct (occ_kernel sv d) as [| |volume surface_area cg] eqn:K.
  - do 3 eexists. split; [reflexivity|].
    eapply calculation_failed; [exact P|exact R|]. rewrite C. reflexivity.
  - do 3 eexists. split; [reflexivity|].
    eapply calculation_failed; [exact P|exact R|]. rewrite C. reflexivity.
  - destruct (calculate_mark_total (Some volume) ev) as (vm & Ev & _).
    destruct (calculate_mark_total (Some surface_area) esa) as (sm & Es & _).
    destruct (calculate_cg_mark_thirds cg ecg) as (mx & my & mz & _ & _ & _ & Ec).
    cbn [mret M_ret]. rewrite !bind_run. unfold lift at 1. rewrite Ev.
    rewrite !bind_run. unfold lift at 1. rewrite Es.
    rewrite !bind_run. unfold lift at 1. rewrite Ec.
    rewrite !bind_run. unfold isfile at 1. rewrite L.
    do 3 eexists. split; [reflexivity|].
    eapply marked; [exact P|exact R|rewrite C; reflexivity|exact Ev|exact Es|exact Ec].
Qed.

Lemma for_each_path (total : nat) (ev esa : option T) (ecg : T * T * T)
    (l : list string) (results : list (row T)) (count : nat) (w : world doc) :
  exists results' count' w',
    for_each (process_file sv total ev esa (Some ecg)) l (results, count) w =
      (Ok (results', count'), w') /\
    loop_path sv total ev esa ecg l results count w results' count' w'.
Proof.
  revert results count w. induction l as [|file l IH]; intros results count w.
  - do 3 eexists. split; [reflexivity|]. constructor.
  - cbn [for_each]. rewrite bind_run.
    destruct (process_file_path total ev esa ecg file results count w)
      as (r1 & c1 & w1 & R1 & B1).
    rewrite R1.
    destruct (IH r1 c1 w1) as (r2 & c2 & w2 & R2 & B2).
    exists r2, c2, w2. split; [exact R2|]. econstructor; eassumption.
Qed.

Lemma progress_lines_app (total first n m : nat) :
  progress_lines total first (n + m) =
  progress_lines total first n ++ progress_lines total (first + n) m.
Proof. unfold progress_lines. now rewrite seq_app, map_app. Qed.

Lemma calculate_properties_prints (step : string) (w w' : world doc) r :
  calculate_properties sv step w = (r, w') ->
  output_dir w' = output_dir w /\ export_calls w' = export_calls w /\
  exists new, printed w' = printed w ++ new /\ List.filter is_progress new = [].
Proof.
  rewrite calculate_properties_run. intros E.
  destruct (output_dir w !! step) as [d|]; [destruct (occ_kernel sv d)|];
    injection E as <- <-; repeat split;
    first [ now exists []; rewrite app_nil_r | eexists [_]; split; reflexivity ].
Qed.

(** What one pass through the body changes. *)
Lemma body_path_facts (total : nat) (ev esa : option T) (ecg : T * T * T)
    (file : string) results count (w : world doc) results' count' w' :
  body_path sv total ev esa ecg file results count w results' count' w' ->
  exists added new,
    results' = results ++ added /\
    count' = count + length added /\
    (added = [] \/
     is_par file = true /\ exists r, added = [r] /\
       StudentID r = (splitext file).1 /\ is_numeric_row r) /\
    printed w' = printed w ++ new /\
    List.filter is_progress new = progress_lines total (S count) (length added) /\
    export_calls w <= export_calls w' <= export_calls w + (if is_par file then 3 else 0) /\
    (forall f, f <> step_file_of file -> output_dir w' !! f = output_dir w !! f) /\
    (is_par file = false -> output_dir w' = output_dir w).
Proof.
  intros B. destruct B as [P | w1 P R | w1 w2 P R C | w1 v sa cg vm sm cm P R C Ev Es Ec].
  - exists [], []. rewrite !app_nil_r, P.
    split; [reflexivity|]. split; [cbn; lia|]. split; [now left|].
    split; [reflexivity|]. split; [reflexivity|]. split; [lia|].
    split; reflexivity.
  - destruct (export_with_retry_spec 3 file w)
      as (k & o & w1' & R' & Hk & Hc & _ & _ & Hd & new & Hp & Hn).
    rewrite R in R'. injection R' as <- <-.
    exists [], (new ++ [FailedToExport file 3]). rewrite app_nil_r, P.
    cbn [add_print printed export_calls output_dir length].
    split; [reflexivity|]. split; [lia|]. split; [now left|].
    split; [rewrite Hp; now rewrite app_assoc|].
    split; [rewrite List.filter_app, Hn; reflexivity|].
    split; [lia|]. split; [exact Hd|congruence].
  - destruct (export_with_retry_spec 3 file w)
      as (k & o & w1' & R' & Hk & Hc & _ & _ & Hd & new & Hp & Hn).
    rewrite R in R'. injection R' as <- <-.
    destruct (calculate_properties_prints _ _ _ _ C) as (Cd & Cc & new2 & Cp & Cn).
    exists [], (new ++ new2 ++ [ErrorCalculating file]). rewrite app_nil_r, P.
    cbn [add_print printed export_calls output_dir length].
    split; [reflexivity|]. split; [lia|]. split; [now left|].
    split; [rewrite Cp, Hp; now rewrite <- !app_assoc|].
    split; [rewrite !List.filter_app, Hn, Cn; reflexivity|].
    split; [lia|]. split; [|congruence].
    intros f Hne. rewrite Cd. now apply Hd.
  - destruct (export_with_retry_spec 3 file w)
      as (k & o & w1' & R' & Hk & Hc & _ & _ & Hd & new & Hp & Hn).
    rewrite R in R'. injection R' as <- <-.
    eexists [_], (new ++ [Processed (S count) total]). rewrite P.
    cbn [add_print printed export_calls output_dir length].
    split; [reflexivity|]. split; [lia|]. split.
    { right. split; [reflexivity|]. eexists. split; [reflexivity|].
      split; [reflexivity|exact I]. }
    split; [rewrite Hp; now rewrite app_assoc|].
    split; [rewrite List.filter_app, Hn; reflexivity|].
    split; [lia|]. split; [|congruence].
    intros f Hne. rewrite lookup_delete_ne by congruence. now apply Hd.
Qed.

(** What a run of the loop changes. *)
Lemma loop_path_facts (total : nat) (ev esa : option T) (ecg : T * T * T)
    (l : list string) results count (w : world doc) results' count' w' :
  loop_path sv total ev esa ecg l results count w results' count' w' ->
  exists added new,
    results' = results ++ added /\
    count' = count + length added /\
    sublist (map StudentID added)
      (map (fun f => (splitext f).1) (List.filter is_par l)) /\
    Forall is_numeric_row added /\
    printed w' = printed w ++ new /\
    List.filter is_progress new = progress_lines total (S count) (length added) /\
    export_calls w <= export_calls w' <=
      export_calls w + 3 * length (List.filter is_par l) /\
    (forall f, f ∉ map step_file_of (List.filter is_par l) ->
       output_dir w' !! f = output_dir w !! f).
Proof.
  induction 1 as [results count w
                 | file l results count w r1 c1 w1 r2 c2 w2 B L IH].
  - exists [], []. rewrite !app_nil_r.
    split; [reflexivity|]. split; [cbn; lia|]. split; [apply sublist_nil|].
    split; [constructor|]. split; [reflexivity|]. split; [reflexivity|].
    split; [cbn; lia|]. reflexivity.
  - destruct (body_path_facts _ _ _ _ _ _ _ _ _ _ _ B)
      as (a1 & n1 & -> & -> & Ha & Hp1 & Hn1 & Hc1 & Hd1 & Hq1).
    destruct IH as (a2 & n2 & -> & -> & Hs & Hf & Hp2 & Hn2 & Hc2 & Hd2).
    exists (a1 ++ a2), (n1 ++ n2).
    split; [now rewrite app_assoc|]. split; [rewrite length_app; lia|].
    split; [|split; [|split; [|split; [|split]]]].
    + cbn [List.filter].
      destruct Ha as [-> | (P & r & -> & Hid & _)].
      * cbn [app]. destruct (is_par file); [|exact Hs].
        cbn [map]. now apply sublist_cons.
      * rewrite P. cbn [app map]. rewrite Hid. now apply sublist_skip.
    + apply Forall_app. split; [|exact Hf].
      destruct Ha as [-> | (_ & r & -> & _ & Hr)]; [constructor|].
      repeat constructor. exact Hr.
    + rewrite Hp2, Hp1. now rewrite app_assoc.
    + rewrite List.filter_app, Hn1, Hn2, length_app, progress_lines_app.
      reflexivity.
    + cbn [List.filter]. destruct (is_par file); cbn [length]; lia.
    + intros f Hf'. cbn [List.filter] in Hf'.
      destruct (is_par file) eqn:P.
      * cbn [map] in Hf'. apply not_elem_of_cons in Hf' as [Hne Hnin].
        rewrite (Hd2 f Hnin). now apply Hd1.
      * rewrite (Hd2 f Hf'). now rewrite (Hq1 eq_refl).
Qed.

(** [process_submissions]: the loop from empty variables, then the cleanup. *)
Lemma process_submissions_run (l : list string) (ev esa : option T)
    (ecg : T * T * T) (w : world doc) :
  exists results count w1 w',
    process_submissions sv l ev esa (Some ecg) w = (Ok results, w') /\
    loop_path sv (length (List.filter is_par l)) ev esa ecg l [] 0 w results count w1 /\
    clean_up_files w1 = (Ok tt, w').
Proof.
  unfold process_submissions. rewrite bind_run.
  destruct (for_each_path (length (List.filter is_par l)) ev esa ecg l [] 0 w)
    as (results & count & w1 & R & L).
  unfold is_par in R at 1. rewrite R.
  destruct (clean_up_files_spec w1) as (w' & C & _).
  exists results, count, w1, w'. split; [|split; [exact L|exact C]].
  rewrite bind_run, C. reflexivity.
Qed.

Lemma export_with_retry_bound (n : nat) (par : string) (w : world doc) :
  export_calls w <= export_calls (export_with_retry sv n par w).2 <= export_calls w + n.
Proof.
  destruct (export_with_retry_spec n par w) as (k & o & w' & -> & Hk & Hc & _).
  cbn. lia.
Qed.

Lemma export_with_retry_first_success (n : nat) (par : string) (w : world doc) k d :
  k < n ->
  (forall j, j < k -> saved (solid_edge sv (export_calls w + j) par) = false) ->
  solid_edge sv (export_calls w + k) par = Saved d ->
  (export_with_retry sv n par w).1 = Ok (Some (step_file_of par)) /\
  export_calls (export_with_retry sv n par w).2 = export_calls w + k + 1.
Proof.
  intros Hk Hbefore Hat.
  destruct (export_with_retry_spec n par w)
    as (k' & o & w' & -> & Hk' & Hc & Hf & Ho & _).
  cbn [fst snd]. destruct o as [p|].
  - destruct Ho as (-> & Hpos & d' & Hs & _). split; [reflexivity|].
    assert (k' - 1 = k) as E; [|lia].
    destruct (Nat.lt_trichotomy (k' - 1) k) as [Lt | [Eq | Gt]]; [|exact Eq|].
    + specialize (Hbefore _ Lt). now rewrite Hs in Hbefore.
    + specialize (Hf k ltac:(lia)). now rewrite Hat in Hf.
  - destruct Ho as (_ & Hall). specialize (Hall k Hk). now rewrite Hat in Hall.
Qed.

Lemma export_with_retry_exhausted (n : nat) (par : string) (w : world doc) :
  (forall j, j < n -> saved (solid_edge sv (export_calls w + j) par) = false) ->
  (export_with_retry sv n par w).1 = Ok None /\
  export_calls (export_with_retry sv n par w).2 = export_calls w + n.
Proof.
  intros Hall.
  destruct (export_with_retry_spec n par w)
    as (k' & o & w' & -> & Hk' & Hc & Hf & Ho & _).
  cbn [fst snd]. destruct o as [p|].
  - destruct Ho as (_ & Hpos & d' & Hs & _).
    specialize (Hall (k' - 1) ltac:(lia)). now rewrite Hs in Hall.
  - destruct Ho as (-> & _). split; [reflexivity|exact Hc].
Qed.

Lemma extract_submission_bound (file : string) (w : world doc) :
  export_calls w <= export_calls (extract_submission sv file w).2 <= export_calls w + 3.
Proof.
  unfold extract_submission. rewrite bind_run.
  destruct (export_with_retry_spec 3 file w)
    as (k & o & w1 & -> & Hk & Hc & _).
  destruct o as [p|];
    [|rewrite bind_run; unfold print; cbn [snd export_calls mret M_ret]; lia].
  rewrite bind_run.
  destruct (calculate_properties sv p w1) as [r w2] eqn:C.
  destruct (calculate_properties_prints _ _ _ _ C) as (_ & Cc & _).
  destruct r; cbn [snd mret M_ret]; lia.
Qed.

(** The three ways through the body for a [.par] file, from what the retry
    loop and the kernel return. *)
Lemma process_file_export_failed total ev esa ecg file vars (w w1 : world doc) :
  is_par file = true ->
  export_with_retry sv 3 file w = (Ok None, w1) ->
  process_file sv total ev esa ecg file vars w =
    (Ok vars, add_print (FailedToExport file 3) w1).
Proof.
  intros P R. unfold process_file. destruct vars as [results count].
  fold (is_par file). rewrite P. unfold extract_submission.
  rewrite !bind_run, R. reflexivity.
Qed.

Lemma process_file_calculation_failed total ev esa ecg file vars (w w1 w2 : world doc) :
  is_par file = true ->
  export_with_retry sv 3 file w = (Ok (Some (step_file_of file)), w1) ->
  calculate_properties sv (step_file_of file) w1 = (Ok (None, None, None), w2) ->
  process_file sv total ev esa ecg file vars w =
    (Ok vars, add_print (ErrorCalculating file) w2).
Proof.
  intros P R C. unfold process_file. destruct vars as [results count].
  fold (is_par file). rewrite P. unfold extract_submission.
  rewrite !bind_run, R, bind_run, C. reflexivity.
Qed.

Lemma process_file_marked total ev esa ecg file results count (w w1 w2 : world doc)
    volume surface_area cg volume_mark surface_area_mark cg_mark :
  is_par file = true ->
  export_with_retry sv 3 file w = (Ok (Some (step_file_of file)), w1) ->
  calculate_properties sv (step_file_of file) w1 =
    (Ok (Some volume, Some surface_area, Some cg), w2) ->
  calculate_mark (Some volume) ev = Ok volume_mark ->
  calculate_mark (Some surface_area) esa = Ok surface_area_mark ->
  calculate_cg_mark cg ecg = Ok cg_mark ->
  process_file sv total ev esa ecg file (results, count) w =
    (Ok (results ++
           [Row (splitext file).1 (Number volume) (Number surface_area)
              (Vector cg) volume_mark surface_area_mark cg_mark],
         S count),
     add_print (Processed (S count) total)
       (World (delete (step_file_of file) (output_dir w2)) (export_calls w2)
          (printed w2))).
Proof.
  intros P R C Ev Es Ec. unfold process_file.
  fold (is_par file). rewrite P. unfold extract_submission.
  rewrite !bind_run, R, bind_run, C. cbn [mret M_ret].
  rewrite !bind_run. unfold lift at 1. rewrite Ev.
  rewrite !bind_run. unfold lift at 1. rewrite Es.
  rewrite !bind_run. unfold lift at 1. rewrite Ec.
  rewrite !bind_run. unfold isfile at 1.
  destruct (output_dir w2 !! step_file_of file) as [d|] eqn:L.
  - reflexivity.
  - cbn. unfold add_print. cbn. now rewrite delete_id.
Qed.

(** With a Solid Edge that answers the same on every call, a submission
    yields a row exactly when its export and its calculation succeed. *)
Lemma body_path_stateless (total : nat) (ev esa : option T) (ecg : T * T * T)
    (file : string) results count (w : world doc) results' count' w' :
  (forall n p, solid_edge sv n p = solid_edge sv 0 p) ->
  body_path sv total ev esa ecg file results count w results' count' w' ->
  exists added,
    results' = results ++ added /\
    map StudentID added =
      if is_par file && extraction_succeeds sv file then [(splitext file).1] else [].
Proof.
  intros St B. unfold extraction_succeeds.
  destruct B as [P | w1 P R | w1 w2 P R C | w1 v sa cg vm sm cm P R C Ev Es Ec].
  - exists []. rewrite app_nil_r, P. split; reflexivity.
  - exists []. rewrite app_nil_r, P. split; [reflexivity|].
    destruct (export_with_retry_spec 3 file w)
      as (k & o & w1' & R' & _ & _ & _ & Ho & _).
    rewrite R in R'. injection R' as <- <-. destruct Ho as (_ & Hall).
    specialize (Hall 0 ltac:(lia)). rewrite St in Hall.
    now destruct (solid_edge sv 0 file).
  - exists []. rewrite app_nil_r, P. split; [reflexivity|].
    destruct (export_with_retry_spec 3 file w)
      as (k & o & w1' & R' & _ & _ & _ & Ho & _).
    rewrite R in R'. injection R' as <- <-. destruct Ho as (_ & _ & d & Hs & L).
    rewrite St in Hs. rewrite Hs.
    rewrite calculate_properties_run, L in C.
    now destruct (occ_kernel sv d).
  - eexists [_]. rewrite P. split; [reflexivity|].
    destruct (export_with_retry_spec 3 file w)
      as (k & o & w1' & R' & _ & _ & _ & Ho & _).
    rewrite R in R'. injection R' as <- <-. destruct Ho as (_ & _ & d & Hs & L).
    rewrite St in Hs. rewrite Hs.
    rewrite calculate_properties_run, L in C.
    now destruct (occ_kernel sv d).
Qed.

Lemma loop_path_stateless (total : nat) (ev esa : option T) (ecg : T * T * T)
    (l : list string) results count (w : world doc) results' count' w' :
  (forall n p, solid_edge sv n p = solid_edge sv 0 p) ->
  loop_path sv total ev esa ecg l results count w results' count' w' ->
  exists added,
    results' = results ++ added /\
    map StudentID added =
      map (fun f => (splitext f).1)
        (List.filter (fun f => is_par f && extraction_succeeds sv f) l).
Proof.
  intros St. induction 1 as [results count w
                 | file l results count w r1 c1 w1 r2 c2 w2 B L IH].
  - exists []. now rewrite app_nil_r.
  - destruct (body_path_stateless _ _ _ _ _ _ _ _ _ _ _ St B) as (a1 & -> & E1).
    destruct IH as (a2 & -> & E2).
    exists (a1 ++ a2). split; [now rewrite app_assoc|].
    rewrite map_app, E1, E2. cbn [List.filter].
    now destruct (is_par file && extraction_succeeds sv file).
Qed.

(** [extract_expected_values]: one export call, whatever its outcome. *)
Lemma extract_expected_values_one_call (sol : string) (w : world doc) :
  export_calls (extract_expected_values sv sol w).2 = S (export_calls w).
Proof.
  unfold extract_expected_values. rewrite bind_run, export_to_step_run.
  destruct (solid_edge sv (export_calls w) sol) as [| |d]; [reflexivity..|].
  rewrite bind_run.
  match goal with |- context [calculate_properties sv ?p ?w1] =>
    destruct (calculate_properties sv p w1) as [r w2] eqn:C end.
  destruct (calculate_properties_prints _ _ _ _ C) as (_ & Cc & _).
  destruct r as [props|e]; [|cbn; now rewrite Cc].
  rewrite !bind_run. unfold isfile at 1.
  match goal with |- context [if ?b then _ else _] => destruct b end.
  - unfold os_remove at 1. rewrite ?bind_run.
    match goal with |- context [clean_up_files ?w3] =>
      destruct (clean_up_files_spec w3) as (w4 & -> & Hc & _) end.
    cbn. now rewrite Hc, Cc.
  - rewrite bind_run, ret_run, bind_run.
    match goal with |- context [clean_up_files ?w3] =>
      destruct (clean_up_files_spec w3) as (w4 & -> & Hc & _) end.
    cbn. now rewrite Hc, Cc.
Qed.

Lemma extract_expected_values_failed (sol : string) (w : world doc) :
  saved (solid_edge sv (export_calls w) sol) = false ->
  (extract_expected_values sv sol w).1 = Ok (None, None, None).
Proof.
  intros F. unfold extract_expected_values. rewrite bind_run, export_to_step_run.
  destruct (solid_edge sv (export_calls w) sol) as [| |d]; [reflexivity..|discriminate].
Qed.

(** When the first export succeeds, both paths read the same properties. *)
Lemma extract_same_when_first_export_succeeds (sol : string) (w : world doc) d :
  solid_edge sv (export_calls w) sol = Saved d ->
  exists props,
    (extract_expected_values sv sol w).1 = Ok props /\
    (extract_submission sv sol w).1 = Ok (Some (step_file_of sol, props)) /\
    export_calls (extract_submission sv sol w).2 = S (export_calls w).
Proof.
  intros E.
  unfold extract_expected_values, extract_submission.
  cbn [export_with_retry]. rewrite !bind_run, export_to_step_run, E.
  cbn [mret M_ret]. rewrite !bind_run.
  match goal with |- context [calculate_properties sv ?p ?w1] =>
    pose proof (calculate_properties_run p w1) as C;
    cbn [output_dir] in C; rewrite lookup_insert_eq in C;
    destruct (calculate_properties sv p w1) as [r w2] eqn:C' end.
  assert (exists props, r = Ok props /\ export_calls w2 = S (export_calls w))
    as (props & -> & Hc).
  { destruct (occ_kernel sv d); injection C as -> ->; eexists; split; reflexivity. }
  exists props. split; [|split; [reflexivity|exact Hc]].
  rewrite !bind_run. unfold isfile at 1.
  match goal with |- context [if ?b then _ else _] => destruct b end.
  - unfold os_remove at 1. rewrite ?bind_run.
    match goal with |- context [clean_up_files ?w3] =>
      destruct (clean_up_files_spec w3) as (w4 & -> & _) end.
    reflexivity.
  - rewrite bind_run, ret_run, bind_run.
    match goal with |- context [clean_up_files ?w3] =>
      destruct (clean_up_files_spec w3) as (w4 & -> & _) end.
    reflexivity.
Qed.






End Runs.

(** ** File names *)

Lemma rev_app_append (a b c : string) :
  String.rev_app (a +:+ b) c = String.rev_app b (String.rev_app a c).
Proof.
  revert c. induction a as [|x a IH]; intros c; [reflexivity|]. cbn. apply IH.
Qed.



(** ** Claims on the retry loop *)

(** C6: the retry loop calls the export service at most [retry_count]
    times; it stops at the first successful export (when attempt [k + 1] is
    the first to succeed, exactly [k + 1] calls are made and its STEP file
    is returned); when every attempt fails, exactly [retry_count] calls are
    made.  A submission costs at most 3 export calls.  For a service that
    fails twice and then succeeds, 3 attempts return the STEP file after
    exactly 3 calls. *)
Theorem C6_retry_bound :
  (forall T (P : PyFloat T) doc (sv : services T doc) retry_count par w,
     export_calls w <= export_calls (export_with_retry sv retry_count par w).2
       <= export_calls w + retry_count) /\
  (forall T (P : PyFloat T) doc (sv : services T doc) retry_count par w k d,
     k < retry_count ->
     (forall j, j < k -> saved (solid_edge sv (export_calls w + j) par) = false) ->
     solid_edge sv (export_calls w + k) par = Saved d ->
     (export_with_retry sv retry_count par w).1 = Ok (Some (step_file_of par)) /\
     export_calls (export_with_retry sv retry_count par w).2 =
       export_calls w + k + 1) /\
  (forall T (P : PyFloat T) doc (sv : services T doc) retry_count par w,
     (forall j, j < retry_count ->
        saved (solid_edge sv (export_calls w + j) par) = false) ->
     (export_with_retry sv retry_count par w).1 = Ok None /\
     export_calls (export_with_retry sv retry_count par w).2 =
       export_calls w + retry_count) /\
  (forall T (P : PyFloat T) doc (sv : services T doc) file w,
     export_calls w <= export_calls (extract_submission sv file w).2
       <= export_calls w + 3) /\
  (let r := export_with_retry (flaky_services 2) 3 "s1.par" start in
   r.1 = Ok (Some "s1.step") /\ export_calls r.2 = 3 /\
   printed r.2 = [ErrorExporting "s1.par"; ErrorExporting "s1.par"]) /\
  (let r := extract_submission (flaky_services 2) "s1.par" start in
   r.1 = Ok (Some ("s1.step", (Some 1000%Q, Some 600%Q, Some (5%Q, 5%Q, 5%Q)))) /\
   export_calls r.2 = 3).
Proof.
  split; [|split; [|split; [|split; [|split]]]].
  - intros. apply export_with_retry_bound.
  - intros T P doc sv n par w k d. apply export_with_retry_first_success.
  - intros. now apply export_with_retry_exhausted.
  - intros. apply extract_submission_bound.
  - vm_compute. repeat split.
  - vm_compute. repeat split.
Qed.

(** C6 for a Solid Edge that fails twice, then succeeds. *)
Lemma C6_witness :
  (export_with_retry (flaky_services 2) 3 "s1.par" start).1 =
    Ok (Some (step_file_of "s1.par")) /\
  export_calls (export_with_retry (flaky_services 2) 3 "s1.par" start).2 = 0 + 2 + 1.
Proof.
  apply (proj1 (proj2 C6_retry_bound) Q _ _ (flaky_services 2) 3 "s1.par" start 2 cube).
  - lia.
  - intros [|[|j]] Hj; [reflexivity|reflexivity|lia].
  - reflexivity.
Defined.

(** ** Claims on the batch *)

(** C2, as stated, fails: a submission whose export or whose calculation
    fails gets no row at all (the rows carry no status), so the batch
    returns fewer rows than submissions.  With three submissions of which
    the second never exports, and likewise when the second exports to a
    file the kernel cannot read, two rows come back. *)
Lemma C2_counterexample :
  let run sv :=
    (process_submissions sv three_submissions (Some 1000%Q) (Some 600%Q)
       (Some (5%Q, 5%Q, 5%Q)) start).1 in
  (exists rows, run batch_services = Ok rows /\
     map StudentID rows = ["s1"; "s3"] /\
     length rows <> length three_submissions) /\
  (exists rows, run unreadable_services = Ok rows /\
     map StudentID rows = ["s1"; "s3"] /\
     length rows <> length three_submissions).
Proof.
  split; eexists; (split; [vm_compute; reflexivity|split; [reflexivity|discriminate]]).
Qed.

(** C2, amended: [process_submissions] never stops early and returns at
    most one row per submission, in listing order.  A submission whose
    export fails on all 3 attempts, or whose property calculation fails,
    contributes no row (a line is printed, the loop variables are left as
    they were) and the loop goes on; a submission that succeeds contributes
    exactly one row.  When Solid Edge answers the same on every call, the
    rows are exactly those of the submissions whose extraction succeeds.
    With three submissions of which the second always fails, the rows of
    the first and the third are returned. *)
Theorem C2_failed_submissions_are_skipped :
  (forall T (P : PyFloat T) doc (sv : services T doc) listing ev esa
          (ecg : T * T * T) (w : world doc),
     exists rows w',
       process_submissions sv listing ev esa (Some ecg) w = (Ok rows, w') /\
       sublist (map StudentID rows)
         (map (fun f => (splitext f).1) (List.filter is_par listing)) /\
       ((forall n p, solid_edge sv n p = solid_edge sv 0 p) ->
        map StudentID rows =
          map (fun f => (splitext f).1)
            (List.filter (fun f => is_par f && extraction_succeeds sv f) listing))) /\
  (forall T (P : PyFloat T) doc (sv : services T doc) total ev esa ecg file vars
          (w w1 : world doc),
     is_par file = true ->
     export_with_retry sv 3 file w = (Ok None, w1) ->
     process_file sv total ev esa ecg file vars w =
       (Ok vars, add_print (FailedToExport file 3) w1)) /\
  (forall T (P : PyFloat T) doc (sv : services T doc) total ev esa ecg file vars
          (w w1 w2 : world doc),
     is_par file = true ->
     export_with_retry sv 3 file w = (Ok (Some (step_file_of file)), w1) ->
     calculate_properties sv (step_file_of file) w1 = (Ok (None, None, None), w2) ->
     process_file sv total ev esa ecg file vars w =
       (Ok vars, add_print (ErrorCalculating file) w2)) /\
  (forall T (P : PyFloat T) doc (sv : services T doc) total ev esa
          (ecg : T * T * T) file results count (w : world doc),
     exists added count' w',
       process_file sv total ev esa (Some ecg) file (results, count) w =
         (Ok (results ++ added, count'), w') /\
       length added <= 1) /\
  (exists rows w',
     process_submissions batch_services three_submissions (Some 1000%Q)
       (Some 600%Q) (Some (5%Q, 5%Q, 5%Q)) start = (Ok rows, w') /\
     map StudentID rows = ["s1"; "s3"]).
Proof.
  split; [|split; [|split; [|split]]].
  - intros T P doc sv listing ev esa ecg w.
    destruct (process_submissions_run sv listing ev esa ecg w)
      as (rows & count & w1 & w' & R & L & _).
    exists rows, w'. split; [exact R|].
    destruct (loop_path_facts _ _ _ _ _ _ _ _ _ _ _ _ L)
      as (added & new & E & _ & Hs & _).
    cbn [app] in E. subst added. split; [exact Hs|].
    intros St.
    destruct (loop_path_stateless _ _ _ _ _ _ _ _ _ _ _ _ St L) as (added & E & Hm).
    cbn [app] in E. now subst added.
  - intros. now apply process_file_export_failed.
  - intros. now apply process_file_calculation_failed with w1.
  - intros T P doc sv total ev esa ecg file results count w.
    destruct (process_file_path sv total ev esa ecg file results count w)
      as (r' & c' & w' & R & B).
    destruct (body_path_facts _ _ _ _ _ _ _ _ _ _ _ _ B)
      as (added & new & -> & _ & Ha & _).
    exists added, c', w'. split; [exact R|].
    destruct Ha as [-> | (_ & r & -> & _)]; cbn; lia.
  - destruct (process_submissions batch_services three_submissions (Some 1000%Q)
       (Some 600%Q) (Some (5%Q, 5%Q, 5%Q)) start) as [r w'] eqn:E.
    assert (r = Ok (match r with Ok rows => rows | Raise _ => [] end) /\
            map StudentID (match r with Ok rows => rows | Raise _ => [] end)
              = ["s1"; "s3"]) as [Hr Hm].
    { replace r with (process_submissions batch_services three_submissions
        (Some 1000%Q) (Some 600%Q) (Some (5%Q, 5%Q, 5%Q)) start).1
        by now rewrite E.
      split; vm_compute; reflexivity. }
    eexists _, w'. split; [rewrite Hr at 1; reflexivity|exact Hm].
Qed.

(** The amended C2 on a submission that Solid Edge never opens. *)
Lemma C2_witness :
  process_file batch_services 3 (Some 1000%Q) (Some 600%Q) (Some (5%Q, 5%Q, 5%Q))
    "s2.par" ([], 0) start =
  (Ok ([], 0), add_print (FailedToExport "s2.par" 3)
     (export_with_retry batch_services 3 "s2.par" start).2).
Proof.
  apply (proj1 (proj2 C2_failed_submissions_are_skipped)).
  - reflexivity.
  - reflexivity.
Defined.

(** C8, as stated, fails: the progress line is printed at the end of the
    successful path only; a submission that fails leaves the body by
    [continue] before it.  In the batch of three whose second submission
    never exports, two progress lines are printed, none of them after the
    second submission, and the count never reaches the total. *)
Lemma C8_counterexample :
  let w' :=
    (process_submissions batch_services three_submissions (Some 1000%Q)
       (Some 600%Q) (Some (5%Q, 5%Q, 5%Q)) start).2 in
  printed w' =
    [Processed 1 3; ErrorExporting "s2.par"; ErrorExporting "s2.par";
     ErrorExporting "s2.par"; FailedToExport "s2.par" 3; Processed 2 3] /\
  length (List.filter is_progress (printed w')) <> length three_submissions.
Proof.
  split; [vm_compute; reflexivity|vm_compute; discriminate].
Qed.

(** C8, amended: a progress line is printed after each submission that is
    marked, and only then: the body of the loop prints the line
    [Processed (count + 1) total] exactly when it appends a row, and no
    progress line otherwise.  Over a batch the progress lines are
    [1/total], ..., [k/total], where [k] is the number of rows returned and
    [total] the number of [.par] files. *)
Theorem C8_progress_after_marked_submissions :
  (forall T (P : PyFloat T) doc (sv : services T doc) listing ev esa
          (ecg : T * T * T) (w : world doc),
     exists rows w' new,
       process_submissions sv listing ev esa (Some ecg) w = (Ok rows, w') /\
       printed w' = printed w ++ new /\
       List.filter is_progress new =
         progress_lines (length (List.filter is_par listing)) 1 (length rows)) /\
  (forall T (P : PyFloat T) doc (sv : services T doc) total ev esa
          (ecg : T * T * T) file results count (w : world doc),
     exists added w' new,
       process_file sv total ev esa (Some ecg) file (results, count) w =
         (Ok (results ++ added, count + length added), w') /\
       length added <= 1 /\
       printed w' = printed w ++ new /\
       List.filter is_progress new = progress_lines total (S count) (length added)).
Proof.
  split.
  - intros T P doc sv listing ev esa ecg w.
    destruct (process_submissions_run sv listing ev esa ecg w)
      as (rows & count & w1 & w' & R & L & C).
    destruct (loop_path_facts _ _ _ _ _ _ _ _ _ _ _ _ L)
      as (added & new & E & _ & _ & _ & Hp & Hn & _).
    cbn [app] in E. subst added.
    destruct (clean_up_files_spec w1) as (w'' & C' & _ & _ & new2 & Hp2 & Hn2).
    rewrite C in C'. injection C' as <-.
    exists rows, w', (new ++ new2). split; [exact R|]. split.
    + rewrite Hp2, Hp. now rewrite app_assoc.
    + rewrite List.filter_app, Hn, Hn2. now rewrite app_nil_r.
  - intros T P doc sv total ev esa ecg file results count w.
    destruct (process_file_path sv total ev esa ecg file results count w)
      as (r' & c' & w' & R & B).
    destruct (body_path_facts _ _ _ _ _ _ _ _ _ _ _ _ B)
      as (added & new & -> & -> & Ha & Hp & Hn & _).
    exists added, w', new. split; [exact R|]. split; [|split; assumption].
    destruct Ha as [-> | (_ & r & -> & _)]; cbn; lia.
Qed.

(** ** Claims on the expected values *)

(** C9, as stated, fails: [extract_expected_values] calls [export_to_step]
    once and gives up, where the loop of [process_submissions] tries three
    times.  With a Solid Edge that fails on its first call only, the
    expected values of a file come back as [(None, None, None)] after one
    call, while the same file as a submission yields its properties after
    two. *)
Lemma C9_counterexample :
  let expected := extract_expected_values (flaky_services 1) "solution.par" start in
  let submitted := extract_submission (flaky_services 1) "solution.par" start in
  expected.1 = Ok (None, None, None) /\
  export_calls expected.2 = 1 /\
  submitted.1 =
    Ok (Some ("solution.step", (Some 1000%Q, Some 600%Q, Some (5%Q, 5%Q, 5%Q)))) /\
  export_calls submitted.2 = 2.
Proof. vm_compute. repeat split. Qed.

(** C9, amended: the expected values are obtained by one export attempt,
    with no retry, followed by the same property calculation as for a
    submission.  [extract_expected_values] calls the export service exactly
    once; when that call succeeds it returns the properties that the
    per-submission extraction of the same file returns from the same state
    (which then also makes one call); when it fails the result is
    [(None, None, None)]. *)
Theorem C9_expected_values_single_attempt :
  (forall T (P : PyFloat T) doc (sv : services T doc) sol (w : world doc),
     export_calls (extract_expected_values sv sol w).2 = S (export_calls w)) /\
  (forall T (P : PyFloat T) doc (sv : services T doc) sol (w : world doc) d,
     solid_edge sv (export_calls w) sol = Saved d ->
     exists props,
       (extract_expected_values sv sol w).1 = Ok props /\
       (extract_submission sv sol w).1 = Ok (Some (step_file_of sol, props)) /\
       export_calls (extract_submission sv sol w).2 = S (export_calls w)) /\
  (forall T (P : PyFloat T) doc (sv : services T doc) sol (w : world doc),
     saved (solid_edge sv (export_calls w) sol) = false ->
     (extract_expected_values sv sol w).1 = Ok (None, None, None)).
Proof.
  split; [|split].
  - intros. apply extract_expected_values_one_call.
  - intros. now apply extract_same_when_first_export_succeeds with d.
  - intros. now apply extract_expected_values_failed.
Qed.

(** The amended C9 for a Solid Edge that never fails. *)
Lemma C9_witness :
  exists props,
    (extract_expected_values (flaky_services 0) "solution.par" start).1 = Ok props /\
    (extract_submission (flaky_services 0) "solution.par" start).1 =
      Ok (Some (step_file_of "solution.par", props)) /\
    export_calls (extract_submission (flaky_services 0) "solution.par" start).2 = 1.
Proof.
  apply (proj1 (proj2 C9_expected_values_single_attempt)
           Q _ _ (flaky_services 0) "solution.par" start cube).
  reflexivity.
Defined.

(** ** Claims on the files left behind *)



(** ** Fixed-point formatting *)

Lemma all_digits_app (a b : string) :
  all_digits (a +:+ b) = all_digits a && all_digits b.
Proof.
  induction a as [|c a IH]; [reflexivity|]. simpl. now rewrite IH, andb_assoc.
Qed.

Lemma length_string_app (a b : string) :
  String.length (a +:+ b) = String.length a + String.length b.
Proof. induction a as [|c a IH]; [reflexivity|]. simpl. now rewrite IH. Qed.

Lemma digit_is_digit (n : Z) : (0 <= n < 10)%Z -> is_digit (digit n) = true.
Proof.
  intros Hn. unfold digit.
  assert (Z.to_nat n < 10)%nat as Hk by lia.
  revert Hk. generalize (Z.to_nat n) as k. intros k Hk.
  do 10 (destruct k as [|k]; [reflexivity|]). lia.
Qed.

Lemma fraction_digits_shape (d : nat) (n : Z) :
  all_digits (fraction_digits d n) = true /\
  String.length (fraction_digits d n) = d.
Proof.
  revert n. induction d as [|d IH]; intros n; [split; reflexivity|].
  cbn [fraction_digits]. destruct (IH (n / 10)%Z) as [Hd Hl].
  rewrite all_digits_app, length_string_app, Hd, Hl. cbn.
  rewrite digit_is_digit by (apply Z.mod_pos_bound; lia).
  split; [reflexivity|lia].
Qed.

Lemma string_of_uint_digits (u : Decimal.uint) :
  all_digits (NilEmpty.string_of_uint u) = true.
Proof. induction u; cbn; auto. Qed.

Lemma integer_digits_shape (n : Z) :
  integer_digits n <> EmptyString /\ all_digits (integer_digits n) = true.
Proof.
  unfold integer_digits, NilZero.string_of_uint.
  destruct (N.to_uint (Z.to_N n)) eqn:E; cbn; (split; [discriminate|]);
    try reflexivity; apply string_of_uint_digits.
Qed.

Lemma format_magnitude_shape (d : nat) (q : Q) :
  exists int frac,
    format_magnitude (S d) q = int +:+ String "." frac /\
    int <> EmptyString /\ all_digits int = true /\
    all_digits frac = true /\ String.length frac = S d.
Proof.
  unfold format_magnitude.
  set (n := round_half_even (q * inject_Z (10 ^ Z.of_nat (S d)))).
  destruct (integer_digits_shape (n / 10 ^ Z.of_nat (S d))) as [Hne Hd].
  destruct (fraction_digits_shape (S d) n) as [Hf Hl].
  eauto 10.
Qed.

Lemma format_fixed_shape (d : nat) (q : Q) : fixed_point (S d) (format_fixed (S d) q).
Proof.
  unfold format_fixed, fixed_point.
  destruct (Qle_bool 0 q).
  - destruct (format_magnitude_shape d q) as (int & frac & -> & H).
    exists EmptyString, int, frac. split; [reflexivity|]. split; [now left|exact H].
  - destruct (format_magnitude_shape d (- q)) as (int & frac & -> & H).
    exists "-"%string, int, frac. split; [reflexivity|]. split; [now right|exact H].
Qed.

Lemma format_float_shape (d : nat) (x : float) :
  match Prim2SF x with
  | S754_nan | S754_infinity _ => True
  | _ => fixed_point (S d) (format_float (S d) x)
  end.
Proof.
  unfold format_float.
  destruct (Prim2SF x) as [sg|sg| |sg m e]; try exact I; unfold fixed_point.
  - destruct (format_magnitude_shape d 0) as (int & frac & -> & H).
    destruct sg; [exists "-"%string|exists EmptyString]; exists int, frac;
      (split; [reflexivity|]); (split; [auto|exact H]).
  - destruct (format_magnitude_shape d (Q_of_finite m e)) as (int & frac & -> & H).
    destruct sg; [exists "-"%string|exists EmptyString]; exists int, frac;
      (split; [reflexivity|]); (split; [auto|exact H]).
Qed.

(** ** Claims on the report *)

Lemma save_results_lookup {T} `{PyFloat T} (results : list (row T)) (i : nat) r :
  results !! i = Some r ->
  save_results_to_csv results !! S i = Some (format_row r).
Proof.
  intros L. unfold save_results_to_csv. change (map format_row results !! i = Some (format_row r)).
  revert i L. induction results as [|r0 results IH]; intros [|i] L; try discriminate.
  - now injection L as ->.
  - apply (IH i L).
Qed.

Lemma save_results_ids {T} `{PyFloat T} (results : list (row T)) :
  map (fun cells => hd EmptyString cells) (tail (save_results_to_csv results)) =
  map StudentID results.
Proof.
  unfold save_results_to_csv. cbn [tail].
  induction results as [|r results IH]; [reflexivity|]. cbn. now rewrite IH.
Qed.

(** C7: the report starts with the header row [StudentID, Volume,
    SurfaceArea, CenterOfGravity, VolumeMark, SurfaceAreaMark, CGMark],
    followed by one row per result, in the order of the results (row [i + 1]
    is the row of result [i]; nothing is sorted), and the results of
    [process_submissions] follow the order of the directory listing.  In a
    row the volume and the surface area are printed with 3 decimals, the
    centre of gravity as a tuple of three numbers with 3 decimals, and the
    three marks with 2 decimals; the rows of [process_submissions] always
    hold numbers.  A number printed with [d] decimals is an optional minus
    sign, digits, a point and exactly [d] digits (for floats: unless it is
    nan or infinite). *)
Theorem C7_report_layout :
  (forall T (P : PyFloat T) (results : list (row T)),
     head (save_results_to_csv results) =
       Some ["StudentID"; "Volume"; "SurfaceArea"; "CenterOfGravity";
             "VolumeMark"; "SurfaceAreaMark"; "CGMark"] /\
     length (tail (save_results_to_csv results)) = length results /\
     map (fun cells => hd EmptyString cells) (tail (save_results_to_csv results)) =
       map StudentID results /\
     forall i id v s x y z vm sm cm,
       results !! i =
         Some (Row id (Number v) (Number s) (Vector (x, y, z)) vm sm cm) ->
       save_results_to_csv results !! S i =
         Some [id; format_f 3 v; format_f 3 s;
               "(" +:+ format_f 3 x +:+ ", " +:+ format_f 3 y +:+ ", " +:+
                 format_f 3 z +:+ ")";
               format_f 2 (of_int vm); format_f 2 (of_int sm); format_f 2 cm]) /\
  (forall T (P : PyFloat T) doc (sv : services T doc) listing ev esa
          (ecg : T * T * T) (w : world doc),
     exists rows w',
       process_submissions sv listing ev esa (Some ecg) w = (Ok rows, w') /\
       Forall is_numeric_row rows /\
       sublist (map StudentID rows)
         (map (fun f => (splitext f).1) (List.filter is_par listing))) /\
  (forall (d : nat) (q : Q), fixed_point (S d) (format_f (S d) q)) /\
  (forall (d : nat) (x : float),
     match Prim2SF x with
     | S754_nan | S754_infinity _ => True
     | _ => fixed_point (S d) (format_f (S d) x)
     end) /\
  (exists rows w',
     process_submissions (flaky_services 0) ["S3.par"; "S1.par"; "S2.par"]
       (Some 1000%Q) (Some 500%Q) (Some (5%Q, 5%Q, 4%Q)) start = (Ok rows, w') /\
     save_results_to_csv rows =
       [["StudentID"; "Volume"; "SurfaceArea"; "CenterOfGravity"; "VolumeMark";
         "SurfaceAreaMark"; "CGMark"];
        ["S3"; "1000.000"; "600.000"; "(5.000, 5.000, 5.000)"; "5.00"; "4.00"; "4.33"];
        ["S1"; "1000.000"; "600.000"; "(5.000, 5.000, 5.000)"; "5.00"; "4.00"; "4.33"];
        ["S2"; "1000.000"; "600.000"; "(5.000, 5.000, 5.000)"; "5.00"; "4.00"; "4.33"]]).
Proof.
  split; [|split; [|split; [|split]]].
  - intros T P results. split; [reflexivity|]. split; [|split].
    + unfold save_results_to_csv. cbn [tail]. apply length_map.
    + apply save_results_ids.
    + intros i id v s x y z vm sm cm L.
      now rewrite (save_results_lookup results i _ L).
  - intros T P doc sv listing ev esa ecg w.
    destruct (process_submissions_run sv listing ev esa ecg w)
      as (rows & count & w1 & w' & R & L & _).
    destruct (loop_path_facts _ _ _ _ _ _ _ _ _ _ _ _ L)
      as (added & new & E & _ & Hs & Hn & _).
    cbn [app] in E. subst added. exists rows, w'. auto.
  - intros d q. apply format_fixed_shape.
  - intros d x. apply format_float_shape.
  - destruct (process_submissions (flaky_services 0) ["S3.par"; "S1.par"; "S2.par"]
       (Some 1000%Q) (Some 500%Q) (Some (5%Q, 5%Q, 4%Q)) start) as [r w'] eqn:E.
    assert (r = Ok (match r with Ok rows => rows | Raise _ => [] end) /\
            save_results_to_csv (match r with Ok rows => rows | Raise _ => [] end) =
       [["StudentID"; "Volume"; "SurfaceArea"; "CenterOfGravity"; "VolumeMark";
         "SurfaceAreaMark"; "CGMark"];
        ["S3"; "1000.000"; "600.000"; "(5.000, 5.000, 5.000)"; "5.00"; "4.00"; "4.33"];
        ["S1"; "1000.000"; "600.000"; "(5.000, 5.000, 5.000)"; "5.00"; "4.00"; "4.33"];
        ["S2"; "1000.000"; "600.000"; "(5.000, 5.000, 5.000)"; "5.00"; "4.00"; "4.33"]])
      as [Hr Hm].
    { replace r with (process_submissions (flaky_services 0)
        ["S3.par"; "S1.par"; "S2.par"] (Some 1000%Q) (Some 500%Q)
        (Some (5%Q, 5%Q, 4%Q)) start).1 by now rewrite E.
      split; vm_compute; reflexivity. }
    eexists _, w'. split; [rewrite Hr at 1; reflexivity|exact Hm].
Qed.

(** C7 on one row of binary64 numbers. *)
Lemma C7_witness :
  save_results_to_csv
    [Row "S3" (Number 12.375%float) (Number 2.5%float)
       (Vector (0.125%float, (-0.5)%float, 1%float)) 5 4 (14 / 3)%float] !! 1 =
  Some ["S3"; "12.375"; "2.500"; "(0.125, -0.500, 1.000)"; "5.00"; "4.00"; "4.67"].
Proof.
  refine (eq_trans
    (proj2 (proj2 (proj2 (proj1 C7_report_layout float _
       [Row "S3" (Number 12.375%float) (Number 2.5%float)
          (Vector (0.125%float, (-0.5)%float, 1%float)) 5 4 (14 / 3)%float])))
       0 "S3" 12.375%float 2.5%float 0.125%float (-0.5)%float 1%float 5%Z 4%Z
       (14 / 3)%float eq_refl) _).
  vm_compute. reflexivity.
Defined.

(** * Further properties of the script *)

(** ** File names: [endswith] and [os.path.splitext] *)

Lemma string_app_cons (x : ascii) (a b : string) :
  String x a +:+ b = String x (a +:+ b).
Proof. reflexivity. Qed.

Lemma string_app_nil_r (a : string) : a +:+ EmptyString = a.
Proof.
  induction a as [|x a IH]; [reflexivity|]. now rewrite string_app_cons, IH.
Qed.

Lemma string_app_assoc (a b c : string) : (a +:+ b) +:+ c = a +:+ (b +:+ c).
Proof.
  induction a as [|x a IH]; [reflexivity|]. now rewrite !string_app_cons, IH.
Qed.

Lemma rev_app_rev (a c : string) : String.rev_app a c = String.rev a +:+ c.
Proof.
  unfold String.rev. revert c. induction a as [|x a IH]; intros c; [reflexivity|].
  cbn [String.rev_app]. rewrite (IH (String x c)), (IH (String x EmptyString)).
  now rewrite string_app_assoc.
Qed.

Lemma rev_append (a b : string) :
  String.rev (a +:+ b) = String.rev b +:+ String.rev a.
Proof.
  unfold String.rev at 1. rewrite rev_app_append, rev_app_rev.
  fold (String.rev a). reflexivity.
Qed.

Lemma rev_involutive (a : string) : String.rev (String.rev a) = a.
Proof.
  induction a as [|x a IH]; [reflexivity|].
  change (String x a) with (String x EmptyString +:+ a) at 1.
  rewrite rev_append, rev_append, IH. reflexivity.
Qed.

Lemma prefix_split (p s : string) :
  String.prefix p s = true <-> exists x, s = p +:+ x.
Proof.
  revert s. induction p as [|c p IH]; intros s.
  - split; [intros _; exists s; reflexivity|intros _; now destruct s].
  - destruct s as [|d s]; cbn [String.prefix].
    + split; [discriminate|intros [x E]; discriminate E].
    + destruct (Ascii.ascii_dec c d) as [->|Hne].
      * rewrite IH. split; intros [x E]; exists x.
        -- now rewrite string_app_cons, E.
        -- rewrite string_app_cons in E. now injection E.
      * split; [discriminate|]. intros [x E]. rewrite string_app_cons in E.
        injection E as E1 _. congruence.
Qed.

(** [s.endswith(suffix)] holds exactly when [s] is some text followed by
    [suffix]. *)
Lemma endswith_split (s suffix : string) :
  endswith s suffix = true <-> exists stem, s = stem +:+ suffix.
Proof.
  unfold endswith. rewrite prefix_split. split.
  - intros [x E]. exists (String.rev x).
    rewrite <- (rev_involutive s), E, rev_append, rev_involutive. reflexivity.
  - intros [stem ->]. exists (String.rev stem). apply rev_append.
Qed.

Lemma rsplit_dot_par (stem : string) :
  rsplit_dot (stem +:+ ".par") = Some (stem, ".par"%string).
Proof.
  induction stem as [|c stem IH]; [reflexivity|].
  rewrite string_app_cons. cbn [rsplit_dot]. now rewrite IH.
Qed.

Lemma splitext_par (stem : string) :
  splitext (stem +:+ ".par") =
  if all_dots stem then (stem +:+ ".par", EmptyString) else (stem, ".par"%string).
Proof. unfold splitext. now rewrite rsplit_dot_par. Qed.

Lemma string_app_inv_tail (a b s : string) : a +:+ s = b +:+ s -> a = b.
Proof.
  intros E. apply (f_equal String.rev) in E. rewrite !rev_append in E.
  assert (String.rev a = String.rev b) as R.
  { revert E. generalize (String.rev a) (String.rev b). intros x y.
    induction (String.rev s) as [|c r IH]; [trivial|].
    rewrite !string_app_cons. intros E. injection E as E. now apply IH. }
  rewrite <- (rev_involutive a), <- (rev_involutive b). now rewrite R.
Qed.

Lemma rsplit_dot_join (p root ext : string) :
  rsplit_dot p = Some (root, ext) -> root +:+ ext = p.
Proof.
  revert root ext. induction p as [|c p IH]; intros root ext; [discriminate|].
  cbn [rsplit_dot]. destruct (rsplit_dot p) as [[r e]|].
  - intros E. injection E as <- <-. rewrite string_app_cons. f_equal. now apply IH.
  - destruct (Ascii.eqb c "."); [|discriminate]. intros E. now injection E as <- <-.
Qed.

(** X1.  The directory entries the loop takes are the names [stem.par].
    The student identifier of such an entry is [stem], unless [stem] is
    empty or made of dots only (as in [.par]), in which case it is the whole
    name; the STEP file is the identifier followed by [.step]; the two
    parts [splitext] returns always join back to the name; and two entries
    whose stems are not made of dots only are exported to different STEP
    files unless they are the same entry (the entries [.par] and [.par.par]
    do share one). *)
Theorem X1_student_id_and_step_name :
  (forall file, is_par file = true <-> exists stem, file = stem +:+ ".par") /\
  (forall stem,
     (splitext (stem +:+ ".par")).1 =
       if all_dots stem then stem +:+ ".par" else stem) /\
  (forall stem,
     step_file_of (stem +:+ ".par") =
       (if all_dots stem then stem +:+ ".par" else stem) +:+ ".step") /\
  (forall p, (splitext p).1 +:+ (splitext p).2 = p) /\
  (forall stem1 stem2,
     all_dots stem1 = false -> all_dots stem2 = false ->
     step_file_of (stem1 +:+ ".par") = step_file_of (stem2 +:+ ".par") ->
     stem1 = stem2) /\
  step_file_of ".par" = step_file_of ".par.par".
Proof.
  split; [|split; [|split; [|split; [|split; [|reflexivity]]]]].
  - intros file. apply endswith_split.
  - intros stem. rewrite splitext_par. now destruct (all_dots stem).
  - intros stem. unfold step_file_of. rewrite splitext_par.
    now destruct (all_dots stem).
  - intros p. unfold splitext.
    destruct (rsplit_dot p) as [[root ext]|] eqn:E; cbn [fst snd].
    + destruct (all_dots root); cbn [fst snd];
        [apply string_app_nil_r|now apply rsplit_dot_join].
    + apply string_app_nil_r.
  - intros stem1 stem2 D1 D2. unfold step_file_of.
    rewrite !splitext_par, D1, D2. cbn [fst]. apply string_app_inv_tail.
Qed.

(** ** The mark calculator on floats that are not numbers *)

(** A percentage that is nan or plus infinity fails every test of the
    [if] chain. *)
Lemma mark_of_percentage_not_finite (p : float) :
  Prim2SF p = S754_nan \/ Prim2SF p = S754_infinity false ->
  mark_of_percentage p = 0%Z.
Proof.
  intros Hp. unfold mark_of_percentage. cbn [fleb binary64_PyFloat].
  rewrite !leb_spec.
  destruct Hp as [-> | ->]; reflexivity.
Qed.

Lemma percentage_not_finite (x e : float) :
  (e =? 0)%float = false ->
  Prim2SF x = S754_nan \/ (exists s, Prim2SF x = S754_infinity s) \/
  Prim2SF e = S754_nan \/ (exists s, Prim2SF e = S754_infinity s) ->
  let p := (abs ((x - e) / e) * 100)%float in
  Prim2SF p = S754_nan \/ Prim2SF p = S754_infinity false.
Proof.
  intros Z H p. unfold p.
  rewrite mul_spec, abs_spec, div_spec, sub_spec.
  rewrite FloatAxioms.eqb_spec in Z.
  change (Prim2SF 100) with (S754_finite false 7036874417766400 (-46)).
  change (Prim2SF 0) with (S754_zero false) in Z.
  destruct (Prim2SF x) as [sx|sx| |sx mx ex], (Prim2SF e) as [se|se| |se me ee];
    try discriminate Z;
    try (destruct H as [H | [[s H] | [H | [s H]]]]; discriminate H);
    try destruct sx; try destruct se; cbn; auto.
Qed.

(** X5.  In binary64, a measured or an expected value that is nan or
    infinite (the kernel computes with floats) is marked 0, and nothing is
    raised: the percentage is then nan or plus infinity, and both fail
    every comparison of the [if] chain. *)
Theorem X5_mark_of_non_finite_float (value expected_value : float) :
  Prim2SF value = S754_nan \/ (exists s, Prim2SF value = S754_infinity s) \/
  Prim2SF expected_value = S754_nan \/
  (exists s, Prim2SF expected_value = S754_infinity s) ->
  calculate_mark (Some value) (Some expected_value) = Ok 0%Z.
Proof.
  intros H. unfold calculate_mark. cbn [is_zero binary64_PyFloat].
  destruct (expected_value =? 0)%float eqn:Z; [reflexivity|].
  unfold percentage_of, truediv. cbn [is_zero binary64_PyFloat]. rewrite Z.
  cbn [mbind result_bind]. f_equal.
  apply mark_of_percentage_not_finite.
  apply (percentage_not_finite value expected_value Z H).
Qed.

(** X5 for a volume that is not a number, and for an infinite one. *)
Lemma X5_witness :
  calculate_mark (Some nan) (Some 1000%float) = Ok 0%Z /\
  calculate_mark (Some infinity) (Some 1000%float) = Ok 0%Z.
Proof.
  split.
  - apply X5_mark_of_non_finite_float. left. reflexivity.
  - apply X5_mark_of_non_finite_float. right. left. exists false. reflexivity.
Defined.

(** ** The mark calculator: orientation of an axis, perfect submissions *)

Lemma calculate_mark_zero_expected (m e : Q) :
  e == 0 -> calculate_mark (Some m) (Some e) = Ok 0%Z.
Proof.
  intros E. unfold calculate_mark. cbn [is_zero Q_PyFloat].
  now rewrite (proj2 (Qeq_bool_iff e 0) E).
Qed.

Lemma calculate_mark_opp_Q (v e : Q) :
  calculate_mark (Some (- v)%Q) (Some (- e)%Q) = calculate_mark (Some v) (Some e).
Proof.
  destruct (Qeq_dec e 0) as [E|N].
  - rewrite (calculate_mark_zero_expected v e E).
    apply calculate_mark_zero_expected. rewrite E. reflexivity.
  - assert (~ - e == 0) as N'.
    { intros Z. apply N. rewrite <- (Qopp_involutive e), Z. reflexivity. }
    rewrite (calculate_mark_Q _ _ N), (calculate_mark_Q _ _ N'). f_equal.
    apply spec_bucket_compat.
    assert ((- v - - e) / - e == (v - e) / e) as -> by (now field).
    reflexivity.
Qed.

Lemma is_zero_opp_binary64 (e : float) : (- e =? 0)%float = (e =? 0)%float.
Proof.
  rewrite !FloatAxioms.eqb_spec, opp_spec.
  destruct (Prim2SF e) as [s|s| |s m x]; try destruct s; reflexivity.
Qed.

Lemma percentage_opp_binary64 (v e : float) :
  (abs ((- v - - e) / - e) * 100)%float = (abs ((v - e) / e) * 100)%float.
Proof.
  apply Prim2SF_inj.
  repeat first [rewrite abs_spec | rewrite mul_spec | rewrite div_spec
               | rewrite sub_spec | rewrite opp_spec].
  now rewrite !SFabs_div, SFabs_sub_opp, SFabs_opp.
Qed.

Lemma calculate_mark_opp_binary64 (v e : float) :
  calculate_mark (Some (- v)%float) (Some (- e)%float) =
  calculate_mark (Some v) (Some e).
Proof.
  destruct (e =? 0)%float eqn:Z.
  - unfold calculate_mark. cbn [is_zero binary64_PyFloat].
    now rewrite is_zero_opp_binary64, Z.
  - rewrite (calculate_mark_binary64 v e Z).
    rewrite calculate_mark_binary64 by now rewrite is_zero_opp_binary64.
    now rewrite percentage_opp_binary64.
Qed.

(** X3.  The mark does not depend on the orientation of the axis a value
    is measured along: changing the sign of both the measured and the
    expected value leaves the mark unchanged, for every pair of binary64
    floats (zeros, infinities and nan included; rounding to nearest is
    symmetric) and for every pair of exact rationals. *)
Theorem X3_mark_sign_symmetry :
  (forall value expected_value : float,
     calculate_mark (Some (- value)%float) (Some (- expected_value)%float) =
     calculate_mark (Some value) (Some expected_value)) /\
  (forall value expected_value : Q,
     calculate_mark (Some (- value)%Q) (Some (- expected_value)%Q) =
     calculate_mark (Some value) (Some expected_value)).
Proof.
  split; [exact calculate_mark_opp_binary64|exact calculate_mark_opp_Q].
Qed.

(** A float compared with itself: the difference of a finite float with
    itself is plus zero, and so is the percentage unless the float is
    itself a zero. *)
Lemma calculate_mark_same_binary64 (e : float) :
  calculate_mark (Some e) (Some e) = Ok (if finite_nonzero e then 5 else 0)%Z.
Proof.
  unfold finite_nonzero. destruct (Prim2SF e) as [s|s| |s m x] eqn:E.
  - unfold calculate_mark. cbn [is_zero binary64_PyFloat].
    rewrite FloatAxioms.eqb_spec, E. now destruct s.
  - destruct (e =? 0)%float eqn:Z;
      [unfold calculate_mark; cbn [is_zero binary64_PyFloat]; now rewrite Z|].
    rewrite (calculate_mark_binary64 e e Z). f_equal.
    apply (mark_of_percentage_not_finite (abs ((e - e) / e) * 100)%float).
    apply (percentage_not_finite e e Z). right. left. now exists s.
  - destruct (e =? 0)%float eqn:Z;
      [unfold calculate_mark; cbn [is_zero binary64_PyFloat]; now rewrite Z|].
    rewrite (calculate_mark_binary64 e e Z). f_equal.
    apply (mark_of_percentage_not_finite (abs ((e - e) / e) * 100)%float).
    apply (percentage_not_finite e e Z). now left.
  - assert ((e =? 0)%float = false) as Z
      by (rewrite FloatAxioms.eqb_spec, E; now destruct s).
    rewrite (calculate_mark_binary64 e e Z). f_equal.
    assert ((abs ((e - e) / e) * 100)%float = 0%float) as ->; [|reflexivity].
    apply Prim2SF_inj.
    rewrite mul_spec, abs_spec, div_spec, sub_spec, E, SFsub_diag.
    now destruct s.
Qed.

(** X4.  A submission whose values equal the expected ones.  In binary64
    a quantity scores 5 when the expected value is finite and not zero,
    and 0 when it is a zero, an infinity or nan; in exact arithmetic it
    scores 5 unless the expected value is zero.  The centre-of-gravity mark
    of such a submission is therefore 5 only when every expected coordinate
    scores, and at most 10/3 as soon as one of them does not (an expected
    centre of gravity in the plane [z = 0], say). *)
Theorem X4_mark_of_identical_values :
  (forall e : float,
     calculate_mark (Some e) (Some e) = Ok (if finite_nonzero e then 5 else 0)%Z) /\
  (forall x y z : float,
     finite_nonzero x && finite_nonzero y && finite_nonzero z = true ->
     calculate_cg_mark (x, y, z) (Some (x, y, z)) = Ok 5%float) /\
  (forall x y z : float,
     finite_nonzero x && finite_nonzero y && finite_nonzero z = false ->
     exists c, calculate_cg_mark (x, y, z) (Some (x, y, z)) = Ok c /\
       (c <=? 10 / 3)%float = true) /\
  (forall e : Q,
     calculate_mark (Some e) (Some e) = Ok (if Qeq_bool e 0 then 0 else 5)%Z) /\
  (forall x y z : Q, ~ x == 0 -> ~ y == 0 -> ~ z == 0 ->
     exists c, calculate_cg_mark (x, y, z) (Some (x, y, z)) = Ok c /\ c == 5) /\
  (forall x y z : Q, x == 0 \/ y == 0 \/ z == 0 ->
     exists c, calculate_cg_mark (x, y, z) (Some (x, y, z)) = Ok c /\
       (c <= 10 # 3)%Q).
Proof.
  assert (forall e : Q,
     calculate_mark (Some e) (Some e) = Ok (if Qeq_bool e 0 then 0 else 5)%Z) as A.
  { intros e. destruct (Qeq_bool e 0) eqn:Z.
    - apply calculate_mark_zero_expected. now apply Qeq_bool_iff.
    - assert (~ e == 0) as N.
      { intros E. apply Qeq_bool_iff in E. congruence. }
      rewrite (calculate_mark_Q _ _ N). f_equal.
      assert (Qabs ((e - e) / e) * 100 == 0) as E.
      { assert ((e - e) / e == 0) as -> by (now field). reflexivity. }
      now rewrite (spec_bucket_compat _ _ E). }
  assert (forall x y z : Q,
     calculate_cg_mark (x, y, z) (Some (x, y, z)) =
       Ok (third (if Qeq_bool x 0 then 0 else 5)%Z +
           third (if Qeq_bool y 0 then 0 else 5)%Z +
           third (if Qeq_bool z 0 then 0 else 5)%Z)%Q) as B.
  { intros x y z. unfold calculate_cg_mark. now rewrite !A. }
  assert (forall x y z : float,
     calculate_cg_mark (x, y, z) (Some (x, y, z)) =
       Ok (third (if finite_nonzero x then 5 else 0)%Z +
           third (if finite_nonzero y then 5 else 0)%Z +
           third (if finite_nonzero z then 5 else 0)%Z)%float) as C.
  { intros x y z. unfold calculate_cg_mark.
    now rewrite !calculate_mark_same_binary64. }
  split; [exact calculate_mark_same_binary64|]. split; [|split; [|split; [exact A|split]]].
  - intros x y z F. rewrite C.
    destruct (finite_nonzero x), (finite_nonzero y), (finite_nonzero z);
      try discriminate F. reflexivity.
  - intros x y z F. eexists. split; [apply C|].
    destruct (finite_nonzero x), (finite_nonzero y), (finite_nonzero z);
      try discriminate F; reflexivity.
  - intros x y z Nx Ny Nz. eexists. split; [apply B|].
    now rewrite !Qeq_bool_false.
  - intros x y z H. eexists. split; [apply B|].
    destruct (Qeq_bool x 0) eqn:Zx, (Qeq_bool y 0) eqn:Zy, (Qeq_bool z 0) eqn:Zz;
      try (vm_compute; discriminate).
    exfalso. destruct H as [H | [H | H]]; apply Qeq_bool_iff in H; congruence.
Qed.

(** X4 for a reference whose centre of gravity lies in the plane [z = 0]. *)
Lemma X4_witness :
  exists c,
    calculate_cg_mark (5%float, 5%float, 0%float)
      (Some (5%float, 5%float, 0%float)) = Ok c /\
    (c <=? 10 / 3)%float = true.
Proof.
  apply (proj1 (proj2 (proj2 X4_mark_of_identical_values))).
  reflexivity.
Defined.

(** ** The lines of the cleanup *)

Section Cleanup.
Context {doc : Type}.

Lemma clean_up_loop_prints (l : list string) (w : world doc) :
  printed (for_each (fun file (_ : unit) =>
      if is_junk file then os_remove file;; print (DeletedFile file)
      else mret tt) l tt w).2 =
  printed w ++ map DeletedFile (List.filter is_junk l).
Proof.
  revert w. induction l as [|x l IH]; intros w.
  - cbn. now rewrite app_nil_r.
  - cbn [for_each List.filter]. rewrite bind_run.
    destruct (is_junk x) eqn:J.
    + change ((os_remove x;; print (DeletedFile x)) w) with
        (Ok tt, add_print (DeletedFile x)
           (World (delete x (output_dir w)) (export_calls w) (printed w))).
      cbn iota. rewrite IH. cbn [add_print printed map].
      now rewrite <- app_assoc.
    + rewrite ret_run. cbn iota. apply IH.
Qed.

Lemma clean_up_files_prints (w : world doc) :
  printed (clean_up_files w).2 =
  printed w ++
  map DeletedFile (List.filter is_junk (map_to_list (output_dir w)).*1).
Proof.
  unfold clean_up_files. rewrite bind_run. cbn [listdir].
  apply clean_up_loop_prints.
Qed.

End Cleanup.

(** ** The expected values *)

Section Expected.
Context {T : Type} `{PyFloat T} {doc : Type} (sv : services T doc).

Lemma extract_expected_values_saved (sol : string) (w : world doc) d :
  solid_edge sv (export_calls w) sol = Saved d ->
  (extract_expected_values sv sol w).1 = Ok (properties_of (occ_kernel sv d)) /\
  forall f, output_dir (extract_expected_values sv sol w).2 !! f =
    if is_junk f || bool_decide (f = step_file_of sol) then None
    else output_dir w !! f.
Proof.
  intros E.
  assert (exists w2 w4,
    output_dir w2 = <[step_file_of sol := d]> (delete (step_file_of sol) (output_dir w)) /\
    clean_up_files (World (delete (step_file_of sol) (output_dir w2))
                      (export_calls w2) (printed w2)) = (Ok tt, w4) /\
    extract_expected_values sv sol w = (Ok (properties_of (occ_kernel sv d)), w4))
    as (w2 & w4 & Cd & Cl & ->).
  { unfold extract_expected_values.
    rewrite bind_run, export_to_step_run, E, bind_run.
    match goal with |- context [calculate_properties sv ?p ?w1] =>
      pose proof (calculate_properties_run sv p w1) as C;
      cbn [output_dir] in C; rewrite lookup_insert_eq in C;
      destruct (calculate_properties sv p w1) as [r w2] eqn:C' end.
    destruct (calculate_properties_prints sv _ _ _ _ C') as (Cd & _).
    cbn [output_dir] in Cd.
    assert (r = Ok (properties_of (occ_kernel sv d))) as ->
      by (destruct (occ_kernel sv d); now injection C as -> _).
    rewrite bind_run. unfold isfile at 1. rewrite Cd, lookup_insert_eq.
    destruct (clean_up_files_spec
                (World (delete (step_file_of sol) (output_dir w2))
                   (export_calls w2) (printed w2))) as (w4 & Cl & _).
    exists w2, w4. split; [exact Cd|]. split; [exact Cl|].
    rewrite bool_decide_eq_true_2 by eauto.
    rewrite bind_run. unfold os_remove at 1. rewrite bind_run, Cl. reflexivity. }
  split; [reflexivity|]. intros f. cbn [snd].
  destruct (clean_up_files_spec (World (delete (step_file_of sol) (output_dir w2))
                      (export_calls w2) (printed w2))) as (w4' & Cl' & _ & Hd & _).
  rewrite Cl in Cl'. injection Cl' as <-. rewrite Hd.
  cbn [output_dir]. rewrite Cd.
  destruct (is_junk f); [reflexivity|]. cbn [orb].
  destruct (bool_decide_reflect (f = step_file_of sol)) as [->|Hne].
  - apply lookup_delete_eq.
  - rewrite lookup_delete_ne by congruence. rewrite lookup_insert_ne by congruence.
    now apply lookup_delete_ne.
Qed.

End Expected.

(** X8.  [extract_expected_values] cleans up only after a successful
    export, and never touches a file other than the STEP file of the
    solution and the [.txt] and [.log] files.  When the solution cannot be
    opened the result is [(None, None, None)] and every file of the output
    directory, [.txt] and [.log] files included, is still there; when
    [SaveAs] fails the result is the same and only a STEP file of that name
    left by an earlier run is gone.  When Solid Edge saves the solution,
    the result is what the kernel reads from the saved document (all
    [None] when it cannot read it) and the STEP file is removed again. *)
Theorem X8_expected_values_postcondition :
  forall T (P : PyFloat T) doc (sv : services T doc) sol (w : world doc),
    let r := extract_expected_values sv sol w in
    (forall f,
       endswith f ".txt" || endswith f ".log" = false ->
       f <> step_file_of sol ->
       output_dir r.2 !! f = output_dir w !! f) /\
    match solid_edge sv (export_calls w) sol with
    | Saved d =>
        r.1 = Ok (properties_of (occ_kernel sv d)) /\
        output_dir r.2 !! step_file_of sol = None
    | OpenFails =>
        r.1 = Ok (None, None, None) /\
        forall f d, output_dir w !! f = Some d -> output_dir r.2 !! f = Some d
    | SaveAsFails =>
        r.1 = Ok (None, None, None) /\
        output_dir r.2 !! step_file_of sol = None /\
        forall f d,
          f <> step_file_of sol ->
          output_dir w !! f = Some d -> output_dir r.2 !! f = Some d
    end.
Proof.
  intros T P doc sv sol w r. subst r.
  destruct (solid_edge sv (export_calls w) sol) as [| |d] eqn:E.
  - unfold extract_expected_values.
    rewrite bind_run, export_to_step_run, E, ret_run.
    cbn [fst snd output_dir]. repeat split; auto.
  - unfold extract_expected_values.
    rewrite bind_run, export_to_step_run, E, ret_run.
    cbn [fst snd output_dir]. repeat split.
    + intros f _ Hne. now apply lookup_delete_ne.
    + apply lookup_delete_eq.
    + intros f d Hne L. now rewrite lookup_delete_ne.
  - destruct (extract_expected_values_saved sv sol w d E) as [Hr Hd].
    repeat split.
    + intros f J Hne. rewrite Hd. fold (is_junk f) in J. rewrite J.
      now rewrite bool_decide_eq_false_2.
    + exact Hr.
    + rewrite Hd, bool_decide_eq_true_2 by reflexivity. now rewrite orb_true_r.
Qed.

(** ** A batch without an expected centre of gravity *)

Section NoExpectedCg.
Context {T : Type} `{PyFloat T} {doc : Type} (sv : services T doc).

(** Line 176 raises as soon as the properties of a submission are there. *)
Lemma process_file_type_error total ev esa file vars (w w1 w2 : world doc)
    volume surface_area cg :
  is_par file = true ->
  export_with_retry sv 3 file w = (Ok (Some (step_file_of file)), w1) ->
  calculate_properties sv (step_file_of file) w1 =
    (Ok (Some volume, Some surface_area, Some cg), w2) ->
  process_file sv total ev esa None file vars w = (Raise TypeError, w2).
Proof.
  intros P R C. unfold process_file. destruct vars as [results count].
  fold (is_par file). rewrite P. unfold extract_submission.
  rewrite !bind_run, R, bind_run, C. rewrite ret_run. cbn iota.
  destruct (calculate_mark_total (Some volume) ev) as (vm & Ev & _).
  destruct (calculate_mark_total (Some surface_area) esa) as (sm & Es & _).
  rewrite !bind_run. unfold lift at 1. rewrite Ev.
  rewrite !bind_run. unfold lift at 1. rewrite Es.
  rewrite !bind_run. reflexivity.
Qed.

Lemma process_file_without_expected_cg total ev esa file vars (w : world doc) :
  let r := process_file sv total ev esa None file vars w in
  (r.1 = Ok vars \/ r.1 = Raise TypeError) /\
  ((forall n p, solid_edge sv n p = solid_edge sv 0 p) ->
   r.1 = if is_par file && extraction_succeeds sv file then Raise TypeError
         else Ok vars).
Proof.
  intros r. subst r. unfold extraction_succeeds.
  destruct (is_par file) eqn:P.
  2: { unfold process_file. destruct vars. fold (is_par file). rewrite P.
       split; [now left|reflexivity]. }
  destruct (export_with_retry_spec sv 3 file w)
    as (k & o & w1 & R & _ & _ & _ & Ho & _).
  destruct o as [p|].
  - destruct Ho as (-> & _ & d & Hs & L).
    pose proof (calculate_properties_run sv (step_file_of file) w1) as C.
    rewrite L in C.
    destruct (occ_kernel sv d) as [| |volume surface_area cg] eqn:K.
    + rewrite (process_file_calculation_failed sv total ev esa None file vars
                 w w1 _ P R C).
      split; [now left|]. intros St. rewrite St in Hs. now rewrite Hs, K.
    + rewrite (process_file_calculation_failed sv total ev esa None file vars
                 w w1 _ P R C).
      split; [now left|]. intros St. rewrite St in Hs. now rewrite Hs, K.
    + rewrite (process_file_type_error total ev esa file vars w w1 _ _ _ _ P R C).
      split; [now right|]. intros St. rewrite St in Hs. now rewrite Hs, K.
  - rewrite (process_file_export_failed sv total ev esa None file vars w w1 P R).
    split; [now left|]. intros St. destruct Ho as (_ & Hall).
    specialize (Hall 0 ltac:(lia)). rewrite St in Hall.
    now destruct (solid_edge sv 0 file).
Qed.

Lemma for_each_without_expected_cg total ev esa (l : list string) vars
    (w : world doc) :
  let r := for_each (process_file sv total ev esa None) l vars w in
  (r.1 = Ok vars \/ r.1 = Raise TypeError) /\
  ((forall n p, solid_edge sv n p = solid_edge sv 0 p) ->
   r.1 = if existsb (fun f => is_par f && extraction_succeeds sv f) l
         then Raise TypeError else Ok vars).
Proof.
  revert w. induction l as [|file l IH]; intros w r; subst r.
  - split; [now left|reflexivity].
  - cbn [for_each existsb]. rewrite bind_run.
    destruct (process_file_without_expected_cg total ev esa file vars w) as [Hc Hs].
    destruct (process_file sv total ev esa None file vars w) as [r1 w1].
    cbn [fst] in Hc, Hs. destruct (IH w1) as [IHc IHs]. split.
    + destruct Hc as [-> | ->]; [exact IHc|now right].
    + intros St. specialize (Hs St). specialize (IHs St).
      destruct (is_par file && extraction_succeeds sv file); subst r1;
        [reflexivity|exact IHs].
Qed.

(** A pass that returns without an expected centre of gravity has not
    reached line 176: it is the pass with any expected centre of gravity. *)
Lemma process_file_returns total ev esa ecg file vars vars' (w w' : world doc) :
  process_file sv total ev esa None file vars w = (Ok vars', w') ->
  process_file sv total ev esa ecg file vars w = (Ok vars', w').
Proof.
  destruct (is_par file) eqn:P.
  2: { unfold process_file. destruct vars. fold (is_par file). now rewrite P. }
  destruct (export_with_retry_spec sv 3 file w)
    as (k & o & w1 & R & _ & _ & _ & Ho & _).
  destruct o as [p|].
  - destruct Ho as (-> & _ & d & Hs & L).
    pose proof (calculate_properties_run sv (step_file_of file) w1) as C.
    rewrite L in C.
    destruct (occ_kernel sv d) as [| |volume surface_area cg] eqn:K.
    + rewrite (process_file_calculation_failed sv total ev esa None file vars
                 w w1 _ P R C).
      now rewrite (process_file_calculation_failed sv total ev esa ecg file vars
                     w w1 _ P R C).
    + rewrite (process_file_calculation_failed sv total ev esa None file vars
                 w w1 _ P R C).
      now rewrite (process_file_calculation_failed sv total ev esa ecg file vars
                     w w1 _ P R C).
    + rewrite (process_file_type_error total ev esa file vars w w1 _ _ _ _ P R C).
      discriminate.
  - rewrite (process_file_export_failed sv total ev esa None file vars w w1 P R).
    now rewrite (process_file_export_failed sv total ev esa ecg file vars w w1 P R).
Qed.

Lemma for_each_returns total ev esa ecg (l : list string) vars vars'
    (w w' : world doc) :
  for_each (process_file sv total ev esa None) l vars w = (Ok vars', w') ->
  for_each (process_file sv total ev esa ecg) l vars w = (Ok vars', w').
Proof.
  revert vars w. induction l as [|file l IH]; intros vars w; [exact id|].
  cbn [for_each]. rewrite !bind_run.
  destruct (process_file sv total ev esa None file vars w) as [[v1|e] w1] eqn:E.
  - rewrite (process_file_returns total ev esa ecg file vars v1 w w1 E). apply IH.
  - discriminate.
Qed.

Lemma process_submissions_returns listing ev esa ecg rows (w w' : world doc) :
  process_submissions sv listing ev esa ecg w = (Ok rows, w') ->
  exists c, process_submissions sv listing ev esa (Some c) w = (Ok rows, w').
Proof.
  destruct ecg as [c|]; [now exists c|].
  intros R. exists (of_int 0, of_int 0, of_int 0). revert R.
  unfold process_submissions. rewrite !bind_run.
  match goal with |- context [for_each ?b listing ?v w] =>
    destruct (for_each b listing v w) as [[v1|e] w1] eqn:E end; [|discriminate].
  now rewrite (for_each_returns _ ev esa (Some (of_int 0, of_int 0, of_int 0))
                 listing _ v1 w w1 E).
Qed.

(** One pass through the body, whether it returns or raises, touches no
    file but the STEP file of its entry. *)
Lemma process_file_frame total ev esa ecg file vars (w : world doc) (f : string) :
  (is_par file = true -> f <> step_file_of file) ->
  output_dir (process_file sv total ev esa ecg file vars w).2 !! f =
  output_dir w !! f.
Proof.
  intros Hf. destruct (is_par file) eqn:P.
  2: { unfold process_file. destruct vars. fold (is_par file). now rewrite P. }
  specialize (Hf eq_refl).
  destruct (export_with_retry_spec sv 3 file w)
    as (k & o & w1 & R & _ & _ & _ & Ho & Hd & _).
  destruct o as [p|].
  - destruct Ho as (-> & _ & d & Hs & L).
    pose proof (calculate_properties_run sv (step_file_of file) w1) as C.
    rewrite L in C.
    destruct (occ_kernel sv d) as [| |volume surface_area cg] eqn:K.
    + rewrite (process_file_calculation_failed sv total ev esa ecg file vars
                 w w1 _ P R C). now apply Hd.
    + rewrite (process_file_calculation_failed sv total ev esa ecg file vars
                 w w1 _ P R C). now apply Hd.
    + destruct ecg as [c|].
      * destruct vars as [results count].
        destruct (calculate_mark_total (Some volume) ev) as (vm & Ev & _).
        destruct (calculate_mark_total (Some surface_area) esa) as (sm & Es & _).
        destruct (calculate_cg_mark_thirds cg c) as (mx & my & mz & _ & _ & _ & Ec).
        rewrite (process_file_marked sv total ev esa (Some c) file results count
                   w w1 w1 _ _ _ _ _ _ P R C Ev Es Ec).
        cbn [snd add_print output_dir].
        rewrite lookup_delete_ne by congruence. now apply Hd.
      * rewrite (process_file_type_error total ev esa file vars w w1 _ _ _ _ P R C).
        now apply Hd.
  - rewrite (process_file_export_failed sv total ev esa ecg file vars w w1 P R).
    now apply Hd.
Qed.

Lemma for_each_frame total ev esa ecg (l : list string) vars (w : world doc)
    (f : string) :
  f ∉ map step_file_of (List.filter is_par l) ->
  output_dir (for_each (process_file sv total ev esa ecg) l vars w).2 !! f =
  output_dir w !! f.
Proof.
  revert vars w. induction l as [|file l IH]; intros vars w Hf; [reflexivity|].
  cbn [for_each]. rewrite bind_run.
  assert ((is_par file = true -> f <> step_file_of file) /\
          f ∉ map step_file_of (List.filter is_par l)) as [H1 H2].
  { cbn [List.filter] in Hf. destruct (is_par file).
    - cbn [map] in Hf. apply not_elem_of_cons in Hf. tauto.
    - split; [discriminate|exact Hf]. }
  pose proof (process_file_frame total ev esa ecg file vars w f H1) as F.
  destruct (process_file sv total ev esa ecg file vars w) as [[v1|e] w1];
    cbn [snd] in F.
  - rewrite (IH v1 w1 H2). exact F.
  - exact F.
Qed.

(** A batch, whether it returns or raises, leaves every file that is
    neither a STEP file of one of its submissions nor a [.txt] or [.log]
    file as it was. *)
Lemma process_submissions_frame listing ev esa ecg (w : world doc) (f : string) :
  is_junk f = false ->
  f ∉ map step_file_of (List.filter is_par listing) ->
  output_dir (process_submissions sv listing ev esa ecg w).2 !! f =
  output_dir w !! f.
Proof.
  intros J Hf. unfold process_submissions. rewrite bind_run.
  match goal with |- context [for_each ?b listing ?v w] =>
    pose proof (for_each_frame (length (List.filter is_par listing)) ev esa ecg
                  listing v w f Hf) as F;
    change (for_each (process_file sv (length (List.filter is_par listing))
                        ev esa ecg) listing v w)
      with (for_each b listing v w) in F;
    destruct (for_each b listing v w) as [[[rows c]|e] w1]
  end; cbn [snd] in F; [|exact F].
  rewrite bind_run. destruct (clean_up_files_spec w1) as (w2 & -> & _ & Hd & _).
  cbn [snd]. now rewrite Hd, J.
Qed.

End NoExpectedCg.

(** X9.  When the expected centre of gravity is [None] (as returned by
    [extract_expected_values] after a failed export), no submission can be
    marked: [process_submissions] raises [TypeError] at the first
    submission whose properties are calculated, before any row is kept and
    before the cleanup, and returns the empty list otherwise.  For a Solid
    Edge that answers the same on every call, it raises exactly when some
    [.par] entry of the folder can be extracted. *)
Theorem X9_batch_without_expected_cg :
  (forall T (P : PyFloat T) doc (sv : services T doc) listing ev esa
          (w : world doc),
     let r := process_submissions sv listing ev esa None w in
     (r.1 = Ok [] \/ r.1 = Raise TypeError) /\
     ((forall n p, solid_edge sv n p = solid_edge sv 0 p) ->
      r.1 = if existsb (fun f => is_par f && extraction_succeeds sv f) listing
            then Raise TypeError else Ok [])) /\
  (forall T (P : PyFloat T) doc (sv : services T doc) total ev esa file vars
          (w w1 w2 : world doc) volume surface_area cg,
     is_par file = true ->
     export_with_retry sv 3 file w = (Ok (Some (step_file_of file)), w1) ->
     calculate_properties sv (step_file_of file) w1 =
       (Ok (Some volume, Some surface_area, Some cg), w2) ->
     process_file sv total ev esa None file vars w = (Raise TypeError, w2)).
Proof.
  split.
  - intros T P doc sv listing ev esa w r. subst r.
    unfold process_submissions. rewrite bind_run.
    match goal with |- context [for_each ?b listing ?v w] =>
      destruct (for_each_without_expected_cg sv
                  (length (List.filter is_par listing)) ev esa listing v w)
        as [Hc Hs];
      change (for_each b listing v w) with
        (for_each (process_file sv (length (List.filter is_par listing)) ev esa None)
           listing v w);
      destruct (for_each (process_file sv (length (List.filter is_par listing))
                            ev esa None) listing v w) as [r1 w1]
    end.
    cbn [fst] in Hc, Hs.
    split.
    + destruct Hc as [-> | ->]; [left|right; reflexivity].
      rewrite bind_run. destruct (clean_up_files_spec w1) as (w2 & -> & _).
      reflexivity.
    + intros St. rewrite (Hs St).
      destruct (existsb _ listing); [reflexivity|].
      rewrite bind_run. destruct (clean_up_files_spec w1) as (w2 & -> & _).
      reflexivity.
  - intros. now apply process_file_type_error with w1 volume surface_area cg.
Qed.

(** X9 on the batch of three, with a Solid Edge that never opens [s2.par]. *)
Lemma X9_witness :
  process_file batch_services 3 (Some 1000%Q) (Some 600%Q) None "s1.par" ([], 0) start =
  (Raise TypeError, World {["s1.step" := cube]} 1 []).
Proof.
  apply (proj2 X9_batch_without_expected_cg Q _ _ batch_services 3
           (Some 1000%Q) (Some 600%Q) "s1.par" ([], 0) start
           (World {["s1.step" := cube]} 1 []) (World {["s1.step" := cube]} 1 [])
           1000%Q 600%Q (5%Q, 5%Q, 5%Q)).
  - reflexivity.
  - vm_compute. reflexivity.
  - vm_compute. reflexivity.
Defined.

(** ** The rows of a batch *)

Section Rows.
Context {T : Type} `{PyFloat T} {doc : Type} (sv : services T doc).

Lemma body_path_rows (total : nat) (ev esa : option T) (ecg : T * T * T)
    (file : string) results count (w : world doc) results' count' w' :
  body_path sv total ev esa ecg file results count w results' count' w' ->
  exists added, results' = results ++ added /\ Forall (row_marked ev esa ecg) added.
Proof.
  intros B. destruct B as [P | w1 P R | w1 w2 P R C | w1 v sa cg vm sm cm P R C Ev Es Ec];
    try (exists []; rewrite app_nil_r; split; [reflexivity|constructor]).
  eexists [_]. split; [reflexivity|]. repeat constructor.
  exists v, sa, cg. cbn. auto 10.
Qed.

Lemma loop_path_rows (total : nat) (ev esa : option T) (ecg : T * T * T)
    (l : list string) results count (w : world doc) results' count' w' :
  loop_path sv total ev esa ecg l results count w results' count' w' ->
  exists added, results' = results ++ added /\ Forall (row_marked ev esa ecg) added.
Proof.
  induction 1 as [results count w
                 | file l results count w r1 c1 w1 r2 c2 w2 B L IH].
  - exists []. rewrite app_nil_r. split; [reflexivity|constructor].
  - destruct (body_path_rows _ _ _ _ _ _ _ _ _ _ _ B) as (a1 & -> & F1).
    destruct IH as (a2 & -> & F2).
    exists (a1 ++ a2). split; [now rewrite app_assoc|].
    apply Forall_app. now split.
Qed.

Lemma row_marked_range (ev esa : option T) (ecg : T * T * T) (r : row T) :
  row_marked ev esa ecg r ->
  (0 <= VolumeMark r <= 5)%Z /\ (0 <= SurfaceAreaMark r <= 5)%Z /\
  exists mx my mz,
    (0 <= mx <= 5)%Z /\ (0 <= my <= 5)%Z /\ (0 <= mz <= 5)%Z /\
    CGMark r = fadd (fadd (third mx) (third my)) (third mz).
Proof.
  intros (v & s & cg & _ & _ & _ & Ev & Es & Ec).
  destruct (calculate_mark_total (Some v) ev) as (vm & Ev' & Rv).
  destruct (calculate_mark_total (Some s) esa) as (sm & Es' & Rs).
  destruct (calculate_cg_mark_thirds cg ecg) as (mx & my & mz & Hx & Hy & Hz & Ec').
  rewrite Ev in Ev'. rewrite Es in Es'. rewrite Ec in Ec'.
  injection Ev' as ->. injection Es' as ->. injection Ec' as ->.
  split; [exact Rv|]. split; [exact Rs|]. exists mx, my, mz. auto.
Qed.

Lemma process_submissions_rows (l : list string) (ev esa : option T)
    (ecg : T * T * T) (w : world doc) :
  exists rows w',
    process_submissions sv l ev esa (Some ecg) w = (Ok rows, w') /\
    Forall (row_marked ev esa ecg) rows.
Proof.
  destruct (process_submissions_run sv l ev esa ecg w)
    as (rows & count & w1 & w' & R & L & _).
  destruct (loop_path_rows _ _ _ _ _ _ _ _ _ _ _ L) as (added & E & F).
  cbn [app] in E. subst added. eauto.
Qed.

End Rows.

(** X10.  Every row [process_submissions] returns holds the marks of its
    own values: its volume, surface area and centre of gravity are
    numbers, its three marks are what [calculate_mark] gives for them
    against the expected values, the volume and surface-area marks are
    integers between 0 and 5, and the centre-of-gravity mark lies between
    0 and 5, in exact arithmetic and in binary64. *)
Theorem X10_rows_hold_their_marks :
  (forall T (P : PyFloat T) doc (sv : services T doc) listing ev esa
          (ecg : T * T * T) (w : world doc),
     exists rows w',
       process_submissions sv listing ev esa (Some ecg) w = (Ok rows, w') /\
       Forall (row_marked ev esa ecg) rows /\
       Forall (fun r => (0 <= VolumeMark r <= 5)%Z /\
                        (0 <= SurfaceAreaMark r <= 5)%Z) rows) /\
  (forall doc (sv : services Q doc) listing ev esa ecg (w : world doc),
     exists rows w',
       process_submissions sv listing ev esa (Some ecg) w = (Ok rows, w') /\
       Forall (fun r => (0 <= CGMark r <= 5)%Q) rows) /\
  (forall doc (sv : services float doc) listing ev esa ecg (w : world doc),
     exists rows w',
       process_submissions sv listing ev esa (Some ecg) w = (Ok rows, w') /\
       Forall (fun r => (0 <=? CGMark r)%float = true /\
                        (CGMark r <=? 5)%float = true) rows).
Proof.
  split; [|split].
  - intros T P doc sv listing ev esa ecg w.
    destruct (process_submissions_rows sv listing ev esa ecg w) as (rows & w' & R & F).
    exists rows, w'. split; [exact R|]. split; [exact F|].
    eapply Forall_impl; [exact F|]. intros r Hr.
    destruct (row_marked_range _ _ _ _ Hr) as (Hv & Hs & _). now split.
  - intros doc sv listing ev esa ecg w.
    destruct (process_submissions_rows sv listing ev esa ecg w) as (rows & w' & R & F).
    exists rows, w'. split; [exact R|].
    eapply Forall_impl; [exact F|]. intros r Hr.
    destruct (row_marked_range _ _ _ _ Hr)
      as (_ & _ & mx & my & mz & Hx & Hy & Hz & ->).
    apply (thirds_sum_Q mx my mz Hx Hy Hz).
  - intros doc sv listing ev esa ecg w.
    destruct (process_submissions_rows sv listing ev esa ecg w) as (rows & w' & R & F).
    exists rows, w'. split; [exact R|].
    eapply Forall_impl; [exact F|]. intros r Hr.
    destruct (row_marked_range _ _ _ _ Hr)
      as (_ & _ & mx & my & mz & Hx & Hy & Hz & ->).
    apply (thirds_sum_binary64 mx my mz Hx Hy Hz).
Qed.

(** ** Accounting for submissions and export calls *)

Lemma count_lines_app (p : message -> bool) (a b : list message) :
  count_lines p (a ++ b) = count_lines p a + count_lines p b.
Proof. unfold count_lines. now rewrite List.filter_app, length_app. Qed.

Lemma count_lines_repeat (p : message -> bool) (m : message) (j : nat) :
  count_lines p (repeat m j) = if p m then j else 0.
Proof.
  unfold count_lines. induction j as [|j IH]; cbn [repeat List.filter].
  - now destruct (p m).
  - destruct (p m); cbn [length]; [now rewrite IH|exact IH].
Qed.

Lemma count_lines_deleted (p : message -> bool) (files : list string) :
  (forall f, p (DeletedFile f) = false) ->
  count_lines p (map DeletedFile files) = 0.
Proof.
  intros Hp. unfold count_lines. induction files as [|f fs IH]; [reflexivity|].
  cbn [map List.filter]. now rewrite Hp.
Qed.

Section Accounting.
Context {T : Type} `{PyFloat T} {doc : Type} (sv : services T doc).

(** The retry loop prints one line per failed call and nothing else. *)
Lemma export_with_retry_lines (n : nat) (par : string) (w : world doc) :
  exists j,
    printed (export_with_retry sv n par w).2 =
      printed w ++ repeat (ErrorExporting par) j /\
    export_calls (export_with_retry sv n par w).2 =
      export_calls w + j +
      match (export_with_retry sv n par w).1 with
      | Ok (Some _) => 1
      | _ => 0
      end.
Proof.
  revert w. induction n as [|n IH]; intros w.
  - exists 0. cbn. rewrite app_nil_r. split; [reflexivity|lia].
  - cbn [export_with_retry]. rewrite bind_run, export_to_step_run.
    destruct (solid_edge sv (export_calls w) par) as [| |d].
    + match goal with |- context [export_with_retry sv n par ?w1] =>
        destruct (IH w1) as (j & Hp & Hc) end.
      exists (S j). rewrite Hp, Hc. cbn [printed export_calls repeat].
      rewrite <- app_assoc. split; [reflexivity|lia].
    + match goal with |- context [export_with_retry sv n par ?w1] =>
        destruct (IH w1) as (j & Hp & Hc) end.
      exists (S j). rewrite Hp, Hc. cbn [printed export_calls repeat].
      rewrite <- app_assoc. split; [reflexivity|lia].
    + exists 0. rewrite ret_run. cbn. rewrite app_nil_r. split; [reflexivity|lia].
Qed.

Lemma calculate_properties_failure_line (step : string) (w w2 : world doc) :
  calculate_properties sv step w = (Ok (None, None, None), w2) ->
  export_calls w2 = export_calls w /\
  exists m, printed w2 = printed w ++ [m] /\
    is_failure_line m = false /\ is_export_error m = false /\
    is_calculation_error m = false.
Proof.
  rewrite calculate_properties_run. intros E.
  destruct (output_dir w !! step) as [d|]; [destruct (occ_kernel sv d)|];
    try discriminate E; injection E as <-;
    (split; [reflexivity|]); eexists; (split; [reflexivity|]); repeat split.
Qed.

(** One pass through the body: a [.par] entry yields one row or one
    failure line, and every export call is a failed one, with its line, or
    the successful one of a submission that went on to the calculation. *)
Lemma body_path_accounting (total : nat) (ev esa : option T) (ecg : T * T * T)
    (file : string) results count (w : world doc) results' count' w' :
  body_path sv total ev esa ecg file results count w results' count' w' ->
  exists added new,
    results' = results ++ added /\ printed w' = printed w ++ new /\
    length added + count_lines is_failure_line new =
      (if is_par file then 1 else 0) /\
    export_calls w' =
      export_calls w + count_lines is_export_error new + length added +
      count_lines is_calculation_error new.
Proof.
  intros B. destruct B as [P | w1 P R | w1 w2 P R C | w1 v sa cg vm sm cm P R C Ev Es Ec].
  - exists [], []. rewrite !app_nil_r, P. cbn. repeat split; lia.
  - destruct (export_with_retry_lines 3 file w) as (j & Hp & Hc).
    rewrite R in Hp, Hc. cbn [fst snd] in Hp, Hc.
    exists [], (repeat (ErrorExporting file) j ++ [FailedToExport file 3]).
    rewrite app_nil_r, P. cbn [add_print printed export_calls length].
    split; [reflexivity|]. split; [rewrite Hp; now rewrite app_assoc|].
    rewrite !count_lines_app, !count_lines_repeat. cbn. split; lia.
  - destruct (export_with_retry_lines 3 file w) as (j & Hp & Hc).
    rewrite R in Hp, Hc. cbn [fst snd] in Hp, Hc.
    destruct (calculate_properties_failure_line _ _ _ C)
      as (Cc & m & Cp & M1 & M2 & M3).
    exists [], (repeat (ErrorExporting file) j ++ [m] ++ [ErrorCalculating file]).
    rewrite app_nil_r, P. cbn [add_print printed export_calls length].
    split; [reflexivity|]. split; [rewrite Cp, Hp; now rewrite <- !app_assoc|].
    rewrite !count_lines_app, !count_lines_repeat.
    unfold count_lines. cbn [List.filter]. rewrite M1, M2, M3. cbn. split; lia.
  - destruct (export_with_retry_lines 3 file w) as (j & Hp & Hc).
    rewrite R in Hp, Hc. cbn [fst snd] in Hp, Hc.
    eexists [_], (repeat (ErrorExporting file) j ++ [Processed (S count) total]).
    rewrite P. cbn [add_print printed export_calls length].
    split; [reflexivity|]. split; [rewrite Hp; now rewrite app_assoc|].
    rewrite !count_lines_app, !count_lines_repeat. cbn. split; lia.
Qed.

Lemma loop_path_accounting (total : nat) (ev esa : option T) (ecg : T * T * T)
    (l : list string) results count (w : world doc) results' count' w' :
  loop_path sv total ev esa ecg l results count w results' count' w' ->
  exists added new,
    results' = results ++ added /\ printed w' = printed w ++ new /\
    length added + count_lines is_failure_line new =
      length (List.filter is_par l) /\
    export_calls w' =
      export_calls w + count_lines is_export_error new + length added +
      count_lines is_calculation_error new.
Proof.
  induction 1 as [results count w
                 | file l results count w r1 c1 w1 r2 c2 w2 B L IH].
  - exists [], []. rewrite !app_nil_r. cbn. repeat split; lia.
  - destruct (body_path_accounting _ _ _ _ _ _ _ _ _ _ _ B)
      as (a1 & n1 & -> & Hp1 & Hr1 & Hc1).
    destruct IH as (a2 & n2 & -> & Hp2 & Hr2 & Hc2).
    exists (a1 ++ a2), (n1 ++ n2).
    split; [now rewrite app_assoc|].
    split; [rewrite Hp2, Hp1; now rewrite app_assoc|].
    rewrite !count_lines_app, length_app. cbn [List.filter].
    split; [destruct (is_par file); cbn [length]; lia|lia].
Qed.

Lemma process_submissions_accounting listing ev esa (ecg : T * T * T)
    (w : world doc) :
  exists rows w' new,
    process_submissions sv listing ev esa (Some ecg) w = (Ok rows, w') /\
    printed w' = printed w ++ new /\
    length rows + count_lines is_failure_line new =
      length (List.filter is_par listing) /\
    export_calls w' =
      export_calls w + count_lines is_export_error new + length rows +
      count_lines is_calculation_error new.
Proof.
  destruct (process_submissions_run sv listing ev esa ecg w)
    as (rows & count & w1 & w' & R & L & C).
  destruct (loop_path_accounting _ _ _ _ _ _ _ _ _ _ _ L)
    as (added & new & E & Hp & Hr & Hc).
  cbn [app] in E. subst added.
  pose proof (clean_up_files_prints w1) as Cp.
  destruct (clean_up_files_spec w1) as (w'' & C' & Cc & _).
  rewrite C in C'. injection C' as <-. rewrite C in Cp. cbn [snd] in Cp.
  set (deleted := List.filter is_junk (map_to_list (output_dir w1)).*1) in Cp.
  exists rows, w', (new ++ map DeletedFile deleted).
  split; [exact R|]. split; [rewrite Cp, Hp; now rewrite app_assoc|].
  rewrite !count_lines_app, !count_lines_deleted by reflexivity. split; lia.
Qed.

End Accounting.

(** X11.  No submission and no export call goes unaccounted for in a
    batch.  With an expected centre of gravity, [process_submissions]
    always returns.  Whenever it returns, with or without one, then among
    the lines it has printed the number of rows returned plus the number
    of failure lines ([Failed to export] or [Error calculating
    properties]) is the number of [.par] entries of the folder, and the
    number of export calls made is the number of [Error exporting] lines
    plus the number of submissions that reached the calculation (the rows
    and the [Error calculating properties] lines).  (Without an expected
    centre of gravity it raises instead as soon as a submission is to be
    marked, and the entries after that one are not visited.) *)
Theorem X11_batch_accounting :
  forall T (P : PyFloat T) doc (sv : services T doc) listing ev esa
         (ecg : option (T * T * T)) (w : world doc),
    (is_Some ecg ->
     exists rows w', process_submissions sv listing ev esa ecg w = (Ok rows, w')) /\
    (forall rows w',
       process_submissions sv listing ev esa ecg w = (Ok rows, w') ->
       exists new,
         printed w' = printed w ++ new /\
         length rows + count_lines is_failure_line new =
           length (List.filter is_par listing) /\
         export_calls w' =
           export_calls w + count_lines is_export_error new + length rows +
           count_lines is_calculation_error new).
Proof.
  intros T P doc sv listing ev esa ecg w. split.
  - intros [c ->].
    destruct (process_submissions_accounting sv listing ev esa c w)
      as (rows & w' & new & R & _). eauto.
  - intros rows w' R.
    destruct (process_submissions_returns sv _ _ _ _ _ _ _ R) as [c Rc].
    destruct (process_submissions_accounting sv listing ev esa c w)
      as (rows0 & w0 & new & R0 & Hp & Hr & Hc).
    rewrite Rc in R0. injection R0 as <- <-. exists new. auto.
Qed.

(** X11 on a batch that returns without an expected centre of gravity:
    Solid Edge opens none of the three submissions. *)
Lemma X11_witness :
  exists new,
    printed (process_submissions (flaky_services 9) three_submissions
               (Some 1000%Q) (Some 600%Q) None start).2 = printed start ++ new /\
    length ([] : list (row Q)) + count_lines is_failure_line new =
      length (List.filter is_par three_submissions) /\
    export_calls (process_submissions (flaky_services 9) three_submissions
                    (Some 1000%Q) (Some 600%Q) None start).2 =
      export_calls start + count_lines is_export_error new +
      length ([] : list (row Q)) + count_lines is_calculation_error new.
Proof.
  apply (proj2 (X11_batch_accounting Q _ _ (flaky_services 9) three_submissions
                  (Some 1000%Q) (Some 600%Q) None start)).
  vm_compute. reflexivity.
Defined.

(** ** What a batch leaves in the output directory, and what it costs *)

Section Batch.
Context {T : Type} `{PyFloat T} {doc : Type} (sv : services T doc).

Lemma for_each_no_submission total ev esa ecg (l : list string) vars (w : world doc) :
  Forall (fun f => is_par f = false) l ->
  for_each (process_file sv total ev esa ecg) l vars w = (Ok vars, w).
Proof.
  induction 1 as [|file l Hf Hl IH]; [reflexivity|].
  cbn [for_each]. rewrite bind_run.
  assert (process_file sv total ev esa ecg file vars w = (Ok vars, w)) as ->.
  { unfold process_file. destruct vars. fold (is_par file). now rewrite Hf. }
  exact IH.
Qed.

Lemma body_path_calls (total : nat) (ev esa : option T) (ecg : T * T * T)
    (file : string) results count (w : world doc) results' count' w' :
  body_path sv total ev esa ecg file results count w results' count' w' ->
  export_calls w' =
    if is_par file then export_calls (export_with_retry sv 3 file w).2
    else export_calls w.
Proof.
  intros B. destruct B as [P | w1 P R | w1 w2 P R C | w1 v sa cg vm sm cm P R C Ev Es Ec];
    rewrite P; try rewrite R; try reflexivity.
  destruct (calculate_properties_prints sv _ _ _ _ C) as (_ & Cc & _).
  exact Cc.
Qed.

Lemma export_with_retry_calls (par : string) (w : world doc) :
  export_calls w + 1 <= export_calls (export_with_retry sv 3 par w).2
    <= export_calls w + 3 /\
  ((forall n p, solid_edge sv n p = solid_edge sv 0 p) ->
   export_calls (export_with_retry sv 3 par w).2 =
     export_calls w + if saved (solid_edge sv 0 par) then 1 else 3).
Proof.
  split.
  - destruct (export_with_retry_spec sv 3 par w)
      as (k & o & w1 & -> & Hk & Hc & _ & Ho & _).
    cbn [snd]. destruct o as [p|]; [destruct Ho as (_ & Hpos & _)|destruct Ho as (-> & _)];
      lia.
  - intros St. destruct (solid_edge sv 0 par) as [| |d] eqn:E.
    + apply (export_with_retry_exhausted sv 3 par w).
      intros j _. now rewrite St, E.
    + apply (export_with_retry_exhausted sv 3 par w).
      intros j _. now rewrite St, E.
    + destruct (export_with_retry_first_success sv 3 par w 0 d) as (_ & Hc);
        [lia|intros j Hj; lia|now rewrite St|].
      cbn [saved]. lia.
Qed.

Lemma loop_path_calls (total : nat) (ev esa : option T) (ecg : T * T * T)
    (l : list string) results count (w : world doc) results' count' w' :
  loop_path sv total ev esa ecg l results count w results' count' w' ->
  export_calls w + length (List.filter is_par l) <= export_calls w'
    <= export_calls w + 3 * length (List.filter is_par l) /\
  ((forall n p, solid_edge sv n p = solid_edge sv 0 p) ->
   export_calls w' =
     export_calls w +
     length (List.filter (fun f => is_par f && saved (solid_edge sv 0 f)) l) +
     3 * length (List.filter (fun f => is_par f && negb (saved (solid_edge sv 0 f))) l)).
Proof.
  induction 1 as [results count w
                 | file l results count w r1 c1 w1 r2 c2 w2 B L IH].
  - cbn. split; [lia|intros _; lia].
  - pose proof (body_path_calls _ _ _ _ _ _ _ _ _ _ _ B) as Hb.
    destruct (export_with_retry_calls file w) as [Hr Hs].
    destruct IH as [IH1 IH2]. cbn [List.filter].
    destruct (is_par file) eqn:P; cbn [andb].
    + split; [cbn [length]; lia|]. intros St. specialize (Hs St). specialize (IH2 St).
      destruct (saved (solid_edge sv 0 file)); cbn [negb length]; lia.
    + split; [lia|]. intros St. specialize (IH2 St). lia.
Qed.

Lemma process_submissions_calls listing ev esa (ecg : T * T * T) (w : world doc) :
  exists rows w',
    process_submissions sv listing ev esa (Some ecg) w = (Ok rows, w') /\
    export_calls w + length (List.filter is_par listing) <= export_calls w'
      <= export_calls w + 3 * length (List.filter is_par listing) /\
    ((forall n p, solid_edge sv n p = solid_edge sv 0 p) ->
     export_calls w' =
       export_calls w +
       length (List.filter (fun f => is_par f && saved (solid_edge sv 0 f)) listing) +
       3 * length (List.filter
                     (fun f => is_par f && negb (saved (solid_edge sv 0 f))) listing)).
Proof.
  destruct (process_submissions_run sv listing ev esa ecg w)
    as (rows & count & w1 & w' & R & L & C).
  destruct (loop_path_calls _ _ _ _ _ _ _ _ _ _ _ L) as [Hb Hs].
  destruct (clean_up_files_spec w1) as (w'' & C' & Hc & _).
  rewrite C in C'. injection C' as <-.
  exists rows, w'. split; [exact R|]. rewrite Hc. split; [exact Hb|exact Hs].
Qed.

End Batch.

(** X12.  [process_submissions] touches only the STEP files of the
    submissions it exports and the [.txt] and [.log] files: every other
    file of the output directory is there afterwards with its content,
    whether the batch returns or, for want of an expected centre of
    gravity, raises. *)
Theorem X12_batch_frame :
  forall T (P : PyFloat T) doc (sv : services T doc) listing ev esa
         (ecg : option (T * T * T)) (w : world doc) (f : string),
    endswith f ".txt" || endswith f ".log" = false ->
    f ∉ map step_file_of (List.filter (fun n => endswith n ".par") listing) ->
    output_dir (process_submissions sv listing ev esa ecg w).2 !! f =
    output_dir w !! f.
Proof.
  intros T P doc sv listing ev esa ecg w f J Hf.
  now apply process_submissions_frame.
Qed.

(** X12 for a drawing that was in the output directory before the batch,
    with and without an expected centre of gravity. *)
Lemma X12_witness :
  output_dir
    (process_submissions batch_services three_submissions (Some 1000%Q)
       (Some 600%Q) (Some (5%Q, 5%Q, 5%Q))
       (World {["drawing.dft" := cube]} 0 [])).2 !! "drawing.dft" =
  output_dir (World {["drawing.dft" := cube]} 0 []) !! "drawing.dft" /\
  output_dir
    (process_submissions batch_services three_submissions (Some 1000%Q)
       (Some 600%Q) None
       (World {["drawing.dft" := cube]} 0 [])).2 !! "drawing.dft" =
  output_dir (World {["drawing.dft" := cube]} 0 []) !! "drawing.dft".
Proof.
  split.
  - apply (X12_batch_frame Q _ _ batch_services three_submissions
             (Some 1000%Q) (Some 600%Q) (Some (5%Q, 5%Q, 5%Q))
             (World {["drawing.dft" := cube]} 0 []) "drawing.dft").
    + reflexivity.
    + apply (bool_decide_unpack _). vm_compute. exact I.
  - apply (X12_batch_frame Q _ _ batch_services three_submissions
             (Some 1000%Q) (Some 600%Q) None
             (World {["drawing.dft" := cube]} 0 []) "drawing.dft").
    + reflexivity.
    + apply (bool_decide_unpack _). vm_compute. exact I.
Defined.

(** X13.  On a folder without any [.par] entry (an empty folder
    included), [process_submissions] is the cleanup and nothing more: it
    returns the empty list, makes no export call and prints no progress
    line, also when the expected values are [None]. *)
Theorem X13_folder_without_submissions :
  forall T (P : PyFloat T) doc (sv : services T doc) listing ev esa ecg
         (w : world doc),
    Forall (fun f => endswith f ".par" = false) listing ->
    process_submissions sv listing ev esa ecg w = (Ok [], (clean_up_files w).2) /\
    export_calls (process_submissions sv listing ev esa ecg w).2 = export_calls w.
Proof.
  intros T P doc sv listing ev esa ecg w Hl.
  assert (process_submissions sv listing ev esa ecg w = (Ok [], (clean_up_files w).2))
    as ->.
  { unfold process_submissions. rewrite bind_run.
    rewrite (for_each_no_submission sv _ ev esa ecg listing ([], 0) w Hl).
    rewrite bind_run. destruct (clean_up_files_spec w) as (w' & -> & _).
    reflexivity. }
  split; [reflexivity|]. cbn [snd].
  destruct (clean_up_files_spec w) as (w' & -> & Hc & _). exact Hc.
Qed.

(** X13 on a folder that holds no submission. *)
Lemma X13_witness :
  process_submissions batch_services ["notes.txt"; "solution.step"] None None None
    start = (Ok [], (clean_up_files start).2) /\
  export_calls
    (process_submissions batch_services ["notes.txt"; "solution.step"] None None
       None start).2 = export_calls start.
Proof.
  apply X13_folder_without_submissions. repeat constructor.
Defined.

(** X14.  Whenever [process_submissions] returns (as it always does with
    an expected centre of gravity), it has made at least one and at most
    three export calls per [.par] entry and none for the other entries.
    For a Solid Edge that answers the same on every call, it has made
    exactly one call for each submission Solid Edge saves and three for
    each it does not. *)
Theorem X14_batch_export_calls :
  forall T (P : PyFloat T) doc (sv : services T doc) listing ev esa
         (ecg : option (T * T * T)) (w : world doc),
    (is_Some ecg ->
     exists rows w', process_submissions sv listing ev esa ecg w = (Ok rows, w')) /\
    (forall rows w',
       process_submissions sv listing ev esa ecg w = (Ok rows, w') ->
       export_calls w + length (List.filter is_par listing) <= export_calls w'
         <= export_calls w + 3 * length (List.filter is_par listing) /\
       ((forall n p, solid_edge sv n p = solid_edge sv 0 p) ->
        export_calls w' =
          export_calls w +
          length (List.filter (fun f => is_par f && saved (solid_edge sv 0 f))
                    listing) +
          3 * length (List.filter
                        (fun f => is_par f && negb (saved (solid_edge sv 0 f)))
                        listing))).
Proof.
  intros T P doc sv listing ev esa ecg w. split.
  - intros [c ->].
    destruct (process_submissions_calls sv listing ev esa c w)
      as (rows & w' & R & _). eauto.
  - intros rows w' R.
    destruct (process_submissions_returns sv _ _ _ _ _ _ _ R) as [c Rc].
    destruct (process_submissions_calls sv listing ev esa c w)
      as (rows0 & w0 & R0 & Hb & Hs).
    rewrite Rc in R0. injection R0 as <- <-. split; [exact Hb|exact Hs].
Qed.

(** X14 on the batch of three, with a Solid Edge that never opens
    [s2.par]: five export calls for three submissions. *)
Lemma X14_witness :
  export_calls start + length (List.filter is_par three_submissions) <=
    export_calls
      (process_submissions batch_services three_submissions (Some 1000%Q)
         (Some 600%Q) (Some (5%Q, 5%Q, 5%Q)) start).2 <=
    export_calls start + 3 * length (List.filter is_par three_submissions) /\
  export_calls
    (process_submissions batch_services three_submissions (Some 1000%Q)
       (Some 600%Q) (Some (5%Q, 5%Q, 5%Q)) start).2 = 5.
Proof.
  destruct (proj2 (X14_batch_export_calls Q _ _ batch_services three_submissions
                     (Some 1000%Q) (Some 600%Q) (Some (5%Q, 5%Q, 5%Q)) start)
              (match (process_submissions batch_services three_submissions
                        (Some 1000%Q) (Some 600%Q) (Some (5%Q, 5%Q, 5%Q))
                        start).1 with Ok rows => rows | Raise _ => [] end)
              (process_submissions batch_services three_submissions (Some 1000%Q)
                 (Some 600%Q) (Some (5%Q, 5%Q, 5%Q)) start).2)
    as [Hb Hs].
  - vm_compute. reflexivity.
  - split; [exact Hb|]. rewrite Hs by reflexivity. reflexivity.
Defined.
